(** * Skill scaffolding and packaging scripts: model and properties

    A shallow embedding of [scripts/init_skill.py] and
    [scripts/package_skill.py].

    Conventions of the model.
    - A Python [str] is a [string]; a character stands for the code point
      of the same number, so the model covers text over code points
      0..255.  The character classes below are CPython's on that range.
    - A file holds the text that [read_text] returns and [write_text]
      was given (the codec in between is not modelled); file modes and
      timestamps are not modelled either.
    - Messages are constructors that carry the values interpolated into
      the f-string of the source; the source text is quoted next to each.
    - [print] calls are dropped. *)

From Stdlib Require Import Ascii String.
From stdpp Require Import base option list strings gmap fin_maps.

Local Open Scope string_scope.
Local Open Scope list_scope.

(** ** Python strings *)

Module PyStr.

Definition code (c : ascii) : nat := nat_of_ascii c.

Definition between (lo hi : nat) (c : ascii) : bool :=
  (lo <=? code c)%nat && (code c <=? hi)%nat.

(** [ch.isspace()], the class [str.strip()] removes. *)
Definition isspace (c : ascii) : bool :=
  between 9 13 c || between 28 32 c || between 133 133 c || between 160 160 c.

(** [ch.isalnum()]. *)
Definition isalnum (c : ascii) : bool :=
  between 48 57 c || between 65 90 c || between 97 122 c
  || between 170 170 c || between 178 179 c || between 181 181 c
  || between 185 186 c || between 188 190 c
  || between 192 214 c || between 216 246 c || between 248 255 c.

(** [ch.isupper()]; on this range no character is titlecase only. *)
Definition isupper (c : ascii) : bool :=
  between 65 90 c || between 192 214 c || between 216 222 c.

(** [ch.islower()]. *)
Definition islower (c : ascii) : bool :=
  between 97 122 c || between 170 170 c || between 181 181 c
  || between 186 186 c || between 223 246 c || between 248 255 c.

(** A cased character: one of the two above. *)
Definition iscased (c : ascii) : bool := isupper c || islower c.

(** [ch.lower()]. *)
Definition lower_char (c : ascii) : ascii :=
  if isupper c then ascii_of_nat (code c + 32) else c.

Fixpoint all_chars (p : ascii -> bool) (s : string) : bool :=
  match s with
  | EmptyString => true
  | String c s' => p c && all_chars p s'
  end.

Fixpoint any_char (p : ascii -> bool) (s : string) : bool :=
  match s with
  | EmptyString => false
  | String c s' => p c || any_char p s'
  end.

(** [s.isalnum()]: every character alphanumeric, and at least one. *)
Definition str_isalnum (s : string) : bool :=
  match s with
  | EmptyString => false
  | _ => all_chars isalnum s
  end.

(** [s.islower()], as CPython scans it: an uppercase character answers
    False at once, otherwise the answer is whether a lowercase one was
    seen. *)
Fixpoint islower_from (cased : bool) (s : string) : bool :=
  match s with
  | EmptyString => cased
  | String c s' =>
      if isupper c then false else islower_from (cased || islower c) s'
  end.

Definition str_islower (s : string) : bool := islower_from false s.

(** [s.lower()]. *)
Fixpoint lower (s : string) : string :=
  match s with
  | EmptyString => EmptyString
  | String c s' => String (lower_char c) (lower s')
  end.

(** [s.replace(ch, '')] for a one-character [ch]. *)
Fixpoint remove_char (ch : ascii) (s : string) : string :=
  match s with
  | EmptyString => EmptyString
  | String c s' =>
      if Ascii.eqb c ch then remove_char ch s' else String c (remove_char ch s')
  end.

(** [s.replace(a, b)] for one-character [a] and [b]. *)
Fixpoint replace_char (a b : ascii) (s : string) : string :=
  match s with
  | EmptyString => EmptyString
  | String c s' =>
      String (if Ascii.eqb c a then b else c) (replace_char a b s')
  end.

(** The rest of [s] after the prefix [p], when [s.startswith(p)]. *)
Fixpoint drop_prefix (p s : string) : option string :=
  match p, s with
  | EmptyString, _ => Some s
  | String a p', String b s' =>
      if Ascii.eqb a b then drop_prefix p' s' else None
  | String _ _, EmptyString => None
  end.

Definition startswith (s p : string) : bool :=
  match drop_prefix p s with Some _ => true | None => false end.

(** The text before and after the leftmost occurrence of [sep]. *)
Fixpoint partition (sep s : string) : option (string * string) :=
  match drop_prefix sep s with
  | Some rest => Some (EmptyString, rest)
  | None =>
      match s with
      | EmptyString => None
      | String c s' =>
          match partition sep s' with
          | Some (a, b) => Some (String c a, b)
          | None => None
          end
      end
  end.

(** [sub in s]. *)
Definition contains (sub s : string) : bool :=
  match partition sub s with Some _ => true | None => false end.

(** [s.split(sep, maxsplit)] for a non-empty [sep]. *)
Fixpoint split (sep : string) (maxsplit : nat) (s : string) : list string :=
  match maxsplit with
  | O => [s]
  | S n =>
      match partition sep s with
      | Some (a, b) => a :: split sep n b
      | None => [s]
      end
  end.

Fixpoint lstrip (s : string) : string :=
  match s with
  | EmptyString => EmptyString
  | String c s' => if isspace c then lstrip s' else s
  end.

Fixpoint rstrip (s : string) : string :=
  match s with
  | EmptyString => EmptyString
  | String c s' =>
      match rstrip s' with
      | EmptyString => if isspace c then EmptyString else String c EmptyString
      | r => String c r
      end
  end.

(** [s.strip()]. *)
Definition strip (s : string) : string := rstrip (lstrip s).

Definition is_empty (s : string) : bool :=
  match s with EmptyString => true | _ => false end.

End PyStr.

(** ** Values produced by [yaml.safe_load] *)

Module Yaml.

(** The Python objects a safe load can build.  A float keeps only
    whether it is non-zero and a timestamp keeps nothing: the validator
    asks no more of them. *)
#[warnings="-register-all"]
Inductive value :=
| YNull
| YBool (b : bool)
| YInt (z : Z)
| YFloat (nonzero : bool)
| YStr (s : string)
| YBytes (s : string)
| YDate
| YSeq (items : list value)
| YSet (items : list value)
| YMap (items : list (value * value)).

(** What the call does: it returns an object or raises [yaml.YAMLError]. *)
Inductive loaded :=
| Loaded (v : value)
| YAMLError (msg : string).

Definition is_str (s : string) (v : value) : bool :=
  match v with
  | YStr s' => bool_decide (s' = s)
  | _ => false
  end.

(** [d[key]] for a string key. *)
Fixpoint get (key : string) (d : list (value * value)) : option value :=
  match d with
  | [] => None
  | (k, v) :: d' => if is_str key k then Some v else get key d'
  end.

(** [key in d]. *)
Definition has_key (key : string) (d : list (value * value)) : bool :=
  match get key d with Some _ => true | None => false end.

(** [bool(v)]. *)
Definition truthy (v : value) : bool :=
  match v with
  | YNull => false
  | YBool b => b
  | YInt z => negb (Z.eqb z 0)
  | YFloat nz => nz
  | YStr s | YBytes s => negb (PyStr.is_empty s)
  | YDate => true
  | YSeq l | YSet l => match l with [] => false | _ => true end
  | YMap l => match l with [] => false | _ => true end
  end.

(** [len(v.strip())]; [None] stands for the [AttributeError] of an
    object without a [strip] method. *)
Definition stripped_len (v : value) : option nat :=
  match v with
  | YStr s | YBytes s => Some (String.length (PyStr.strip s))
  | _ => None
  end.

(** [sub in v] for a [str] [sub]; [None] stands for the [TypeError] of
    an object that is no container, or of [bytes] asked for a [str]. *)
Definition contains_str (sub : string) (v : value) : option bool :=
  match v with
  | YStr s => Some (PyStr.contains sub s)
  | YSeq l | YSet l => Some (existsb (is_str sub) l)
  | YMap l => Some (has_key sub l)
  | YNull | YBool _ | YInt _ | YFloat _ | YBytes _ | YDate => None
  end.

End Yaml.

(** ** Paths and the file system *)

Module FS.

(** A [pathlib.Path]: whether it has a root, and its components. *)
Record Path := { anchored : bool; parts : list string }.

(** [p / name] for a single component. *)
Definition joinpath (p : Path) (name : string) : Path :=
  {| anchored := anchored p; parts := parts p ++ [name] |}.

(** [p.name]. *)
Definition name (p : Path) : string := List.last (parts p) "".


(** [p.relative_to(base)] for a [p] that lies under [base]. *)
Definition relative_to (p base : Path) : list string :=
  drop (length (parts base)) (parts p).

Inductive node :=
| File (data : string)
| Dir.

(** The state the scripts run in: the working directory and the tree,
    keyed by the components counted from the root.  The root is always
    a directory.  In a tree of a real file system every entry sits in a
    directory; nothing below asks for that, so what is proved for every
    map holds for every such tree. *)
Record world := { cwd : list string; files : gmap (list string) node }.

Definition locate (w : world) (p : Path) : list string :=
  if anchored p then parts p else cwd w ++ parts p.

Definition node_at (w : world) (loc : list string) : option node :=
  match loc with
  | [] => Some Dir
  | _ => files w !! loc
  end.

Definition stat (w : world) (p : Path) : option node := node_at w (locate w p).

Definition put (w : world) (loc : list string) (n : node) : world :=
  {| cwd := cwd w; files := <[loc := n]> (files w) |}.

Definition exists_ (w : world) (p : Path) : bool :=
  match stat w p with Some _ => true | None => false end.

Definition is_dir (w : world) (p : Path) : bool :=
  match stat w p with Some Dir => true | _ => false end.

Definition is_file (w : world) (p : Path) : bool :=
  match stat w p with Some (File _) => true | _ => false end.

(** [p.read_text()]; [None] stands for the [OSError] raised on a
    directory or a missing file. *)
Definition read_text (w : world) (p : Path) : option string :=
  match stat w p with Some (File data) => Some data | _ => None end.

Definition parent_loc (loc : list string) : list string := removelast loc.

(** Opening [p] for writing, then writing [data]: the parent has to be
    a directory and [p] must not be one. *)
Definition write_text (w : world) (p : Path) (data : string) : option world :=
  let loc := locate w p in
  match node_at w (parent_loc loc), node_at w loc with
  | Some Dir, Some Dir => None
  | Some Dir, _ => Some (put w loc (File data))
  | _, _ => None
  end.

(** [p.touch()]. *)
Definition touch (w : world) (p : Path) : option world :=
  let loc := locate w p in
  match node_at w (parent_loc loc), node_at w loc with
  | Some Dir, Some _ => Some w
  | Some Dir, None => Some (put w loc (File ""))
  | _, _ => None
  end.

(** [p.mkdir(exist_ok=True)]. *)
Definition mkdir (w : world) (p : Path) : option world :=
  let loc := locate w p in
  match node_at w loc with
  | Some Dir => Some w
  | Some (File _) => None
  | None =>
      match node_at w (parent_loc loc) with
      | Some Dir => Some (put w loc Dir)
      | _ => None
      end
  end.

(** [p.mkdir(parents=True, exist_ok=True)]: the missing directories on
    the way are made from the top; a file on the way raises. *)
Fixpoint mkdir_from (w : world) (done todo : list string) : option world :=
  match todo with
  | [] => Some w
  | c :: rest =>
      let loc := done ++ [c] in
      match node_at w loc with
      | Some Dir => mkdir_from w loc rest
      | Some (File _) => None
      | None => mkdir_from (put w loc Dir) loc rest
      end
  end.

Definition mkdir_parents (w : world) (p : Path) : option world :=
  mkdir_from w [] (locate w p).

(** [loc] lies strictly below [base]. *)
Definition below (base loc : list string) : bool :=
  bool_decide (base `prefix_of` loc) && bool_decide (loc ≠ base).

(** [p.rglob('*')]: every entry strictly below [p], as a path that
    extends [p]. *)
Definition rglob (w : world) (p : Path) : list Path :=
  let base := locate w p in
  omap (fun '(loc, _) =>
          if below base loc
          then Some {| anchored := anchored p;
                       parts := parts p ++ drop (length base) loc |}
          else None)
       (map_to_list (files w)).

End FS.

(** ** scripts/init_skill.py *)

Module InitSkill.
Import FS.

Definition dquote : string := String (ascii_of_nat 34) EmptyString.

(** The three literal pieces of [SKILL_TEMPLATE] around its two fields,
    with the placeholder description named apart. *)
Definition TEMPLATE_HEAD : string :=
  "---
name: ".

Definition TEMPLATE_DESCRIPTION : string :=
  "TODO - Describe what this skill does and when to use it. This is the primary triggering mechanism - be comprehensive and clear about all use cases.".

Definition TEMPLATE_BODY : string :=
  "

## Overview

TODO - Brief overview of what this skill provides

## When to Use This Skill

TODO - Specific scenarios and triggers for this skill (This is critical for skill activation)

## Workflow

TODO - Step-by-step instructions for using this skill

### Step 1: TODO

TODO - Detailed instructions

### Step 2: TODO

TODO - Detailed instructions

## Examples

TODO - Concrete examples of skill usage

## Resources

- **Scripts**: See `scripts/` directory for automation tools
- **References**: See `references/` directory for detailed documentation
- **Assets**: See `assets/` directory for templates and resources

## Common Pitfalls

TODO - Things to watch out for

## Best Practices

TODO - Recommended approaches
".

Definition EXAMPLE_SCRIPT : string :=
  "#!/usr/bin/env python3
'''
Example script - Replace with your actual automation
'''

def main():
    print("
  +:+ dquote +:+ "Example script - customize for your skill's needs"
  +:+ dquote +:+ ")

if __name__ == '__main__':
    main()
".

Definition EXAMPLE_REFERENCE : string :=
  "# Example Reference Documentation

TODO - Replace with detailed reference material for this skill

## Section 1

Detailed information...

## Section 2

More detailed information...
".

Definition EXAMPLE_ASSET : string :=
  "# Example Asset

This file represents a template or resource that will be used in the output.
Replace with your actual template/asset content.
".

(** [SKILL_TEMPLATE.format(skill_name=..., skill_title=...)]. *)
Definition SKILL_TEMPLATE (skill_name skill_title : string) : string :=
  TEMPLATE_HEAD +:+ skill_name +:+ "
description: " +:+ TEMPLATE_DESCRIPTION +:+ "
---

# " +:+ skill_title +:+ TEMPLATE_BODY.

Inductive outcome :=
| Created (w : world)          (* ran to the end *)
| Exit (status : nat)          (* [sys.exit(status)] after a message *)
| Raised.                      (* an [OSError] from the file system *)

Section Init.

(** [str.title()] can leave the modelled range of characters and only
    ever reaches the body heading, so it is a parameter. *)
Variable title : string -> string.

Definition create_files (skill_name : string) (skill_dir : Path) (w : world)
  : option world :=
  w ← mkdir_parents w skill_dir;
  let skill_title := title (PyStr.replace_char "-" " " skill_name) in
  let skill_md_content := SKILL_TEMPLATE skill_name skill_title in
  w ← write_text w (joinpath skill_dir "SKILL.md") skill_md_content;
  w ← mkdir w (joinpath skill_dir "scripts");
  w ← mkdir w (joinpath skill_dir "references");
  w ← mkdir w (joinpath skill_dir "assets");
  w ← write_text w (joinpath (joinpath skill_dir "scripts") "example.py")
        EXAMPLE_SCRIPT;
  w ← write_text w (joinpath (joinpath skill_dir "references") "example.md")
        EXAMPLE_REFERENCE;
  w ← write_text w (joinpath (joinpath skill_dir "assets") "example-template.md")
        EXAMPLE_ASSET;
  touch w (joinpath (joinpath skill_dir "scripts") ".gitkeep").

Definition create_skill_structure (skill_name : string) (output_path : Path)
    (w : world) : outcome :=
  let skill_dir := joinpath output_path skill_name in
  if exists_ w skill_dir then Exit 1
  else match create_files skill_name skill_dir w with
       | Some w' => Created w'
       | None => Raised
       end.

(** The test of [main]:
    [args.skill_name.replace('-', '').replace('_', '').isalnum()]. *)
Definition name_accepted (skill_name : string) : bool :=
  PyStr.str_isalnum (PyStr.remove_char "_" (PyStr.remove_char "-" skill_name)).

Definition main (skill_name : string) (path : Path) (w : world) : outcome :=
  if negb (name_accepted skill_name) then Exit 1
  else create_skill_structure skill_name path w.

End Init.

End InitSkill.

(** ** scripts/package_skill.py *)

Module PackageSkill.
Import FS Yaml.

(** The messages appended to [self.errors]. *)
Inductive verror :=
| EDirMissing (p : Path)      (* Skill directory does not exist: {p} *)
| ENotDir (p : Path)          (* Path is not a directory: {p} *)
| ESkillMdMissing             (* SKILL.md file is required but not found *)
| ENoFrontmatter              (* SKILL.md must start with YAML frontmatter (---) *)
| ENoClosing                  (* SKILL.md must have closing --- for frontmatter *)
| EInvalidYaml (msg : string) (* Invalid YAML frontmatter: {e} *)
| ENotMapping                 (* Frontmatter must be a YAML dictionary *)
| ENoName                     (* Frontmatter must include 'name' field *)
| ENoDescription              (* Frontmatter must include 'description' field *)
| EDescTooShort               (* Description is too short (min 20 characters). ... *)
| EDescTodo                   (* Description contains TODO - must be completed *)
| EBodyEmpty                  (* SKILL.md body is empty *)
| ENameSpaces (n : string).   (* Skill name '{n}' cannot contain spaces *)

(** The messages appended to [self.warnings]. *)
Inductive vwarning :=
| WNameMismatch (v : value) (n : string)
    (* Frontmatter name '{v}' doesn't match directory name '{n}' *)
| WExtraFields (keys : list value)
    (* Frontmatter contains extra fields (will be ignored): {keys} *)
| WBodyTodo       (* SKILL.md contains TODO items - consider completing them *)
| WBodyShort      (* SKILL.md body is very short - consider adding more guidance *)
| WBodyLong       (* SKILL.md body is very long (>5000 words) - ... *)
| WExampleFile (rel : list string)
    (* Found example file that should be removed or renamed: {rel} *)
| WNoResources    (* No bundled resources found (scripts, references, or assets). ... *)
| WNotLower (n : string)      (* Skill name '{n}' should be lowercase *)
| WUnderscores (n : string).  (* Skill name '{n}' should use hyphens, not underscores *)

(** Exceptions other than [ValidationError]. *)
Inductive pyerror := OSError | AttributeError | TypeError.

Inductive raised :=
| ValidationError (e : verror)
| Uncaught (e : pyerror).

(** The object the checks mutate. *)
Record SkillValidator := {
  skill_path : Path;
  skill_name : string;
  errors : list verror;
  warnings : list vwarning
}.

(** [SkillValidator(skill_path)]. *)
Definition new_validator (p : Path) : SkillValidator :=
  {| skill_path := p; skill_name := FS.name p; errors := []; warnings := [] |}.

Definition add_error (e : verror) (v : SkillValidator) : SkillValidator :=
  {| skill_path := skill_path v; skill_name := skill_name v;
     errors := errors v ++ [e]; warnings := warnings v |}.

Definition add_warning (x : vwarning) (v : SkillValidator) : SkillValidator :=
  {| skill_path := skill_path v; skill_name := skill_name v;
     errors := errors v; warnings := warnings v ++ [x] |}.

(** A method call: the object afterwards, and the exception it left
    with, if any.  What was appended before a [raise] stays appended. *)
Definition call : Type := SkillValidator -> SkillValidator * option raised.

Definition ret : call := fun v => (v, None).
Definition raise (e : verror) : call := fun v => (v, Some (ValidationError e)).
Definition crash (e : pyerror) : call := fun v => (v, Some (Uncaught e)).

Definition seq (c1 c2 : call) : call :=
  fun v => match c1 v with
           | (v', None) => c2 v'
           | (v', Some e) => (v', Some e)
           end.

Notation "c1 ;; c2" := (seq c1 c2) (at level 100, c2 at level 200, right associativity).

Definition when (b : bool) (f : SkillValidator -> SkillValidator) : call :=
  fun v => (if b then f v else v, None).

(** What [validate] hands back: the tuple, or an exception it did not
    catch. *)
Inductive result :=
| Returned (ok : bool) (errs : list verror) (warns : list vwarning)
| Propagated (e : pyerror).

Section Validator.

(** [yaml.safe_load], a library call. *)
Variable safe_load : string -> loaded.
Variable w : world.

Definition _validate_directory_exists : call := fun v =>
  if negb (exists_ w (skill_path v)) then raise (EDirMissing (skill_path v)) v
  else if negb (is_dir w (skill_path v)) then raise (ENotDir (skill_path v)) v
  else ret v.

Definition _validate_skill_md_exists : call := fun v =>
  let skill_md := joinpath (skill_path v) "SKILL.md" in
  if negb (exists_ w skill_md) then raise ESkillMdMissing v else ret v.

(** [not description or len(description.strip()) < 20]; [None] when
    [strip] is looked up on an object that has none. *)
Definition too_short (description : value) : option bool :=
  if negb (truthy description) then Some true
  else n ← stripped_len description; Some (n <? 20)%nat.

(** The part of [_validate_yaml_frontmatter] after the two required
    fields were found. *)
Definition check_fields (d : list (value * value)) (name description : value)
  : call := fun v =>
  let v := if negb (is_str (skill_name v) name)
           then add_warning (WNameMismatch name (skill_name v)) v else v in
  match too_short description with
  | None => crash AttributeError v
  | Some short =>
      let v := if short then add_error EDescTooShort v else v in
      match contains_str "TODO" description with
      | None => crash TypeError v
      | Some todo =>
          let v := if todo then add_error EDescTodo v else v in
          let extra_fields :=
            List.filter (fun k => negb (is_str "name" k || is_str "description" k))
                        (List.map fst d) in
          match extra_fields with
          | [] => ret v
          | _ => ret (add_warning (WExtraFields extra_fields) v)
          end
      end
  end.

Definition _validate_yaml_frontmatter : call := fun v =>
  let skill_md := joinpath (skill_path v) "SKILL.md" in
  match read_text w skill_md with
  | None => crash OSError v
  | Some content =>
      if negb (PyStr.startswith content "---") then raise ENoFrontmatter v
      else
        match PyStr.split "---" 2 content with
        | _ :: part1 :: _ :: _ =>
            let frontmatter_text := PyStr.strip part1 in
            match safe_load frontmatter_text with
            | YAMLError msg => raise (EInvalidYaml msg) v
            | Loaded (YMap d) =>
                match get "name" d with
                | None => raise ENoName v
                | Some name =>
                    match get "description" d with
                    | None => raise ENoDescription v
                    | Some description => check_fields d name description v
                    end
                end
            | Loaded _ => raise ENotMapping v
            end
        | _ => raise ENoClosing v
        end
  end.

Definition _validate_skill_body : call := fun v =>
  let skill_md := joinpath (skill_path v) "SKILL.md" in
  match read_text w skill_md with
  | None => crash OSError v
  | Some content =>
      match PyStr.split "---" 2 content with
      | _ :: _ :: part2 :: _ =>
          let body := PyStr.strip part2 in
          if PyStr.is_empty body then ret (add_error EBodyEmpty v)
          else
            (when (PyStr.contains "TODO" body) (add_warning WBodyTodo) ;;
             when (String.length body <? 100)%nat (add_warning WBodyShort) ;;
             when (25000 <? Z.of_nat (String.length body))%Z (add_warning WBodyLong)) v
      | _ => ret v
      end
  end.

(** The files of one resource directory that count, [.gitkeep] apart. *)
Definition resource_files (dir_path : Path) : list Path :=
  List.filter (fun f => is_file w f && negb (bool_decide (FS.name f = ".gitkeep")))
              (rglob w dir_path).

Definition example_warnings (base : Path) (fs : list Path) : list vwarning :=
  List.map (fun f => WExampleFile (relative_to f base))
    (List.filter (fun f => PyStr.contains "example" (PyStr.lower (FS.name f))) fs).

(** One turn of the loop over [resource_dirs]: the flag and the object. *)
Definition visit_resource_dir (acc : bool * SkillValidator) (dir_name : string)
  : bool * SkillValidator :=
  let '(has_resources, v) := acc in
  let dir_path := joinpath (skill_path v) dir_name in
  if exists_ w dir_path && is_dir w dir_path then
    match resource_files dir_path with
    | [] => (has_resources, v)
    | fs => (true, fold_left (fun v x => add_warning x v)
                             (example_warnings (skill_path v) fs) v)
    end
  else (has_resources, v).

Definition _validate_resources : call := fun v =>
  let '(has_resources, v) :=
    fold_left visit_resource_dir ["scripts"; "references"; "assets"] (false, v) in
  when (negb has_resources) (add_warning WNoResources) v.

Definition _validate_naming_conventions : call := fun v =>
  (when (negb (PyStr.str_islower (skill_name v)))
        (add_warning (WNotLower (skill_name v))) ;;
   when (PyStr.contains "_" (skill_name v))
        (add_warning (WUnderscores (skill_name v))) ;;
   when (PyStr.contains " " (skill_name v))
        (add_error (ENameSpaces (skill_name v)))) v.

(** The body of the [try] block of [validate]. *)
Definition run_checks : call :=
  _validate_directory_exists ;;
  _validate_skill_md_exists ;;
  _validate_yaml_frontmatter ;;
  _validate_skill_body ;;
  _validate_resources ;;
  _validate_naming_conventions.

Definition report (v : SkillValidator) : result :=
  Returned (match errors v with [] => true | _ => false end) (errors v) (warnings v).

Definition validate_from (v : SkillValidator) : result :=
  match run_checks v with
  | (v', None) => report v'
  | (v', Some (ValidationError e)) => report (add_error e v')
  | (_, Some (Uncaught e)) => Propagated e
  end.

(** [SkillValidator(p).validate()]. *)
Definition validate (p : Path) : result := validate_from (new_validator p).

End Validator.

(** *** SkillPackager *)

(** One member of the archive: its name, as components, and its bytes. *)
Definition member : Type := list string * string.

Inductive packaged :=
| Packaged (package_path : Path) (members : list member) (w : world)
| Failed.   (* an [OSError] from the file system *)

Section Packager.

(** The bytes of a finished archive, and the bytes found in the archive
    file while it is still being written; both are the zip library's. *)
Variable zip_bytes : list member -> string.
Variable zip_partial : list member -> string.

(** [zipf.write(file_path, arcname)] for one entry of the walk, in the
    world where the archive file is open. *)
Definition add_entry (w : world) (skill_path package_path : Path)
    (members : list member) (file_path : Path) : list member :=
  match stat w file_path with
  | Some (File data) =>
      let arcname := relative_to file_path skill_path in
      let data := if bool_decide (locate w file_path = locate w package_path)
                  then zip_partial members else data in
      members ++ [(arcname, data)]
  | _ => members
  end.

(** [SkillPackager(skill_path, output_dir).package()]. *)
Definition package (skill_path output_dir : Path) (w : world) : packaged :=
  match mkdir_parents w output_dir with
  | None => Failed
  | Some w =>
      let package_path := joinpath output_dir (FS.name skill_path +:+ ".skill") in
      match write_text w package_path "" with
      | None => Failed
      | Some w =>
          let members :=
            fold_left (add_entry w skill_path package_path) (rglob w skill_path) [] in
          Packaged package_path members
                   (put w (locate w package_path) (File (zip_bytes members)))
      end
  end.

End Packager.

End PackageSkill.

(** ** Instances used for the concrete runs below *)

Module Reference.
Import Yaml FS.

Definition is_letter (c : ascii) : bool :=
  PyStr.between 65 90 c || PyStr.between 97 122 c.

Definition is_digit (c : ascii) : bool := PyStr.between 48 57 c.

(** [str.title()] on ASCII text: a letter is capitalised unless a
    letter comes right before it, in which case it is lowered. *)
Fixpoint title_from (prev_cased : bool) (s : string) : string :=
  match s with
  | EmptyString => EmptyString
  | String c s' =>
      let c' :=
        if PyStr.between 97 122 c && negb prev_cased
        then ascii_of_nat (PyStr.code c - 32)
        else if PyStr.between 65 90 c && prev_cased
        then ascii_of_nat (PyStr.code c + 32)
        else c in
      String c' (title_from (is_letter c) s')
  end.

Definition title_ascii (s : string) : string := title_from false s.

(** A reading of [yaml.safe_load] on the small documents the runs
    below feed it: an empty document, or one [key: value] pair per
    line with plain one-line scalars.  Keys are words; a value is
    empty, a YAML 1.1 boolean or null word, a decimal number, an empty
    flow collection, or plain text that starts with a letter.  A
    document of any other shape is outside this reading and is
    answered with an error, so the function stands for the library
    only on documents of that shape. *)
Definition word_char (c : ascii) : bool :=
  is_letter c || is_digit c || Ascii.eqb c "_" || Ascii.eqb c "-".

Definition text_char (c : ascii) : bool :=
  word_char c || Ascii.eqb c " " || Ascii.eqb c "." || Ascii.eqb c ",".

Definition true_words : list string :=
  ["yes"; "Yes"; "YES"; "true"; "True"; "TRUE"; "on"; "On"; "ON"].
Definition false_words : list string :=
  ["no"; "No"; "NO"; "false"; "False"; "FALSE"; "off"; "Off"; "OFF"].
Definition null_words : list string := ["~"; "null"; "Null"; "NULL"].

Definition starts_with_letter (s : string) : bool :=
  match s with String c _ => is_letter c | EmptyString => false end.

Fixpoint last_is_space (s : string) : bool :=
  match s with
  | EmptyString => false
  | String c EmptyString => Ascii.eqb c " "
  | String _ s' => last_is_space s'
  end.

Fixpoint decimal (acc : Z) (s : string) : Z :=
  match s with
  | EmptyString => acc
  | String c s' => decimal (10 * acc + Z.of_nat (PyStr.code c - 48)) s'
  end.

Definition is_decimal (s : string) : bool :=
  match s with
  | EmptyString => false
  | String c s' =>
      PyStr.all_chars is_digit s
      && (PyStr.is_empty s' || negb (Ascii.eqb c "0"))
  end.

Definition scalar (s : string) : option value :=
  if PyStr.is_empty s then Some YNull
  else if bool_decide (s ∈ null_words) then Some YNull
  else if bool_decide (s ∈ true_words) then Some (YBool true)
  else if bool_decide (s ∈ false_words) then Some (YBool false)
  else if bool_decide (s = "[]") then Some (YSeq [])
  else if bool_decide (s = "{}") then Some (YMap [])
  else if is_decimal s then Some (YInt (decimal 0 s))
  else if starts_with_letter s && PyStr.all_chars text_char s
          && negb (last_is_space s)
  then Some (YStr s)
  else None.

Definition key_word (s : string) : option string :=
  if starts_with_letter s && PyStr.all_chars word_char s
     && negb (bool_decide (s ∈ true_words ++ false_words ++ null_words))
  then Some s else None.

Definition pair_of_line (line : string) : option (value * value) :=
  '(k, rest) ← PyStr.partition ":" line;
  k ← key_word k;
  v ← match rest with
      | EmptyString => Some YNull
      | String c value => if Ascii.eqb c " " then scalar value else None
      end;
  Some (YStr k, v).

Fixpoint pairs_of_lines (seen : list string) (lines : list string)
  : option (list (value * value)) :=
  match lines with
  | [] => Some []
  | line :: rest =>
      '(k, v) ← pair_of_line line;
      match k with
      | YStr ks =>
          if bool_decide (ks ∈ seen) then None
          else d ← pairs_of_lines (ks :: seen) rest; Some ((k, v) :: d)
      | _ => None
      end
  end.

Definition newline : string := String (ascii_of_nat 10) EmptyString.

Definition yaml_lines (text : string) : loaded :=
  if PyStr.is_empty text then Loaded YNull
  else
    match pairs_of_lines [] (PyStr.split newline (String.length text) text) with
    | Some d => Loaded (YMap d)
    | None => YAMLError "outside the modelled documents"
    end.

(** A stand-in for the zip format in the concrete runs: the members
    written out one after the other. *)
Definition listing (members : list PackageSkill.member) : string :=
  String.concat newline
    (List.map (fun m => String.concat "/" (fst m) +:+ ":" +:+ snd m) members).

(** A working directory that holds nothing yet. *)
Definition w0 : world :=
  {| cwd := ["work"]; files := {[ ["work"] := Dir ]} |}.

Definition rel (l : list string) : Path := {| anchored := false; parts := l |}.

(** The world after [init demo --path skills]. *)
Definition w_demo : world :=
  match InitSkill.main title_ascii "demo" (rel ["skills"]) w0 with
  | InitSkill.Created w => w
  | _ => w0
  end.

(** A working directory with one empty directory [dir_name] in it. *)
Definition bare_world (dir_name : string) : world :=
  put w0 ["work"; dir_name] Dir.

(** The same with a [SKILL.md] of the given content. *)
Definition skill_world (dir_name content : string) : world :=
  put (bare_world dir_name) ["work"; dir_name; "SKILL.md"] (File content).

(** A metadata document with the given [description: ...] line. *)
Definition described_md (description_line : string) : string :=
  "---
name: demo
" +:+ description_line +:+ "
---

Run it before every release.
".

(** A metadata document with all TODOs filled in. *)
Definition finished_md : string :=
  described_md "description: Formats and checks the release notes of a project.".

(** A header with a description and no name, and no body. *)
Definition nameless_md : string :=
  "---
description: too short
---
".

End Reference.

(** ** Notions the statements are written with *)

Module Spec.
Import Yaml FS PackageSkill.

(** One character of the class [[A-Za-z0-9_-]]. *)
Definition name_regex_char (c : ascii) : bool :=
  PyStr.between 65 90 c || PyStr.between 97 122 c || PyStr.between 48 57 c
  || Ascii.eqb c "_" || Ascii.eqb c "-".

(** The specification's input constraint: [name] matches
    [^[A-Za-z0-9_-]+$]. *)
Definition matches_name_regex (name : string) : bool :=
  negb (PyStr.is_empty name) && PyStr.all_chars name_regex_char name.

(** A code point below 128. *)
Definition is_ascii (c : ascii) : bool := PyStr.between 0 127 c.

(** A character the initializer lets through: alphanumeric, hyphen or
    underscore. *)
Definition name_char (c : ascii) : bool :=
  PyStr.isalnum c || Ascii.eqb c "-" || Ascii.eqb c "_".



(** The errors that leave [validate] through [raise ValidationError]. *)
Definition structural (e : verror) : bool :=
  match e with
  | EDirMissing _ | ENotDir _ | ESkillMdMissing | ENoFrontmatter | ENoClosing
  | EInvalidYaml _ | ENotMapping | ENoName | ENoDescription => true
  | EDescTooShort | EDescTodo | EBodyEmpty | ENameSpaces _ => false
  end.

Definition naming_error (e : verror) : bool :=
  match e with ENameSpaces _ => true | _ => false end.

(** The errors a completed pass can have accumulated before the naming
    check. *)
Definition content_error (e : verror) : bool :=
  match e with
  | EDescTooShort | EDescTodo | EBodyEmpty => true
  | _ => false
  end.

(** [v'] is [v] after some appends, none of them structural. *)
Definition extends (v v' : SkillValidator) : Prop :=
  skill_path v' = skill_path v /\ skill_name v' = skill_name v /\
  exists le lw,
    errors v' = errors v ++ le /\ warnings v' = warnings v ++ lw
    /\ forallb content_error le = true.

(** What an operation leaves alone: the working directory, and every
    location other than its own. *)
Definition touches_only (loc : list string) (w w' : world) : Prop :=
  cwd w' = cwd w /\ forall l, l <> loc -> node_at w' l = node_at w l.

(** In [w] the directory at [L] is there and its [SKILL.md] holds [x]. *)
Definition holds_skill (c L : list string) (x : string) (w : world) : Prop :=
  cwd w = c /\ node_at w L = Some Dir
  /\ node_at w (L ++ ["SKILL.md"]) = Some (File x).

(** The member the walk makes of one entry of the tree: a regular file
    strictly below [base] goes in under the rest of its location. *)
Definition entry_of (base : list string) (e : list string * node)
  : option member :=
  let '(loc, n) := e in
  if below base loc then
    match n with
    | File data => Some (drop (length base) loc, data)
    | Dir => None
    end
  else None.

(** What reading member [arcname] back from the archive gives. *)
Definition archive_read (members : list member) (arcname : list string)
  : option string :=
  (list_to_map members : gmap (list string) string) !! arcname.

(** The bytes of the regular file at [rel] below the directory [p]. *)
Definition file_below (w : world) (p : Path) (rel : list string) : option string :=
  match rel with
  | [] => None
  | _ => match files w !! (locate w p ++ rel) with
         | Some (File data) => Some data
         | _ => None
         end
  end.

End Spec.

(** ** The command lines *)

Module InitCli.
Import FS.

(** The default of [--path]: [Path.cwd() / ".github" / "skills"]. *)
Definition default_path (w : world) : Path :=
  joinpath (joinpath {| anchored := true; parts := cwd w |} ".github") "skills".

(** [main] with the arguments as [argparse] hands them over: the name,
    and the path when one was given. *)
Definition run (title : string -> string) (skill_name : string)
    (path : option Path) (w : world) : InitSkill.outcome :=
  InitSkill.main title skill_name
    (match path with Some p => p | None => default_path w end) w.

End InitCli.

Module PackageCli.
Import FS Yaml PackageSkill.

(** [p.parent]. *)
Definition parent (p : Path) : Path :=
  {| anchored := anchored p; parts := removelast (parts p) |}.

Inductive finished :=
| Done (package_path : Path) (members : list member) (w : world)
| SysExit (status : nat)   (* [sys.exit(status)] after the errors were printed *)
| Traceback.               (* an exception nobody caught *)

Section Main.

Variable safe_load : string -> loaded.
Variable zip_bytes : list member -> string.
Variable zip_partial : list member -> string.

(** [main] of [package_skill.py], from the parsed arguments on. *)
Definition main (skill_path : Path) (output_dir : option Path) (w : world)
  : finished :=
  let output_dir :=
    match output_dir with Some d => d | None => parent skill_path end in
  match validate safe_load w skill_path with
  | Propagated _ => Traceback
  | Returned is_valid errors warnings =>
      match errors with
      | _ :: _ => SysExit 1
      | [] =>
          match package zip_bytes zip_partial skill_path output_dir w with
          | Packaged package_path members w' => Done package_path members w'
          | Failed => Traceback
          end
      end
  end.

End Main.

End PackageCli.

(** ** Notions for the further statements *)

Module Shape.
Import FS Yaml PackageSkill.

Definition resource_dirs : list string := ["scripts"; "references"; "assets"].

(** The files of one resource directory that count, none when the
    directory is not there. *)
Definition real_files (w : world) (p : Path) (dir_name : string) : list Path :=
  let dir_path := joinpath p dir_name in
  if exists_ w dir_path && is_dir w dir_path then resource_files w dir_path else [].

(** Those of the three resource directories, in the order of the loop. *)
Definition all_real_files (w : world) (p : Path) : list Path :=
  real_files w p "scripts" ++ real_files w p "references" ++ real_files w p "assets".

(** The header keys other than the two allowed ones. *)
Definition extra_keys (d : list (value * value)) : list value :=
  List.filter (fun k => negb (is_str "name" k || is_str "description" k))
              (List.map fst d).

(** The warnings of the body check on a trimmed body. *)
Definition body_warnings (body : string) : list vwarning :=
  if PyStr.is_empty body then []
  else (if PyStr.contains "TODO" body then [WBodyTodo] else [])
       ++ (if (String.length body <? 100)%nat then [WBodyShort] else [])
       ++ (if (25000 <? Z.of_nat (String.length body))%Z then [WBodyLong] else []).

(** A metadata document as the header check takes it apart: the skill
    directory is there, its [SKILL.md] starts with the marker and has a
    second one, the text between them loads as the mapping [d], and
    [part2] is the text after the second marker. *)
Definition parsed_document (safe_load : string -> loaded) (w : world) (p : Path)
    (d : list (value * value)) (part2 : string) : Prop :=
  is_dir w p = true
  /\ exists content part0 part1 rest,
       read_text w (joinpath p "SKILL.md") = Some content
       /\ PyStr.startswith content "---" = true
       /\ PyStr.split "---" 2 content = part0 :: part1 :: part2 :: rest
       /\ safe_load (PyStr.strip part1) = Loaded (YMap d).

(** A location that is neither on the way to [loc] nor below it. *)
Definition apart (loc l : list string) : Prop :=
  ~ l `prefix_of` loc /\ ~ loc `prefix_of` l.

End Shape.

Module Reference2.
Import FS Reference.

(** The initialized skill after its author filled in the document. *)
Definition w_ready : world :=
  put w_demo ["work"; "skills"; "demo"; "SKILL.md"] (File finished_md).

(** The same with the example files deleted. *)
Definition w_clean : world :=
  {| cwd := cwd w_ready;
     files := delete ["work"; "skills"; "demo"; "scripts"; "example.py"]
                (delete ["work"; "skills"; "demo"; "references"; "example.md"]
                   (delete ["work"; "skills"; "demo"; "assets"; "example-template.md"]
                      (files w_ready))) |}.

End Reference2.

(** ** Facts about the string operations *)

Section StringFacts.
Import PyStr.

Lemma eqb_char_eq (a b : ascii) : Ascii.eqb a b = true -> a = b.
Proof. apply Ascii.eqb_eq. Qed.

Lemma all_chars_remove (p : ascii -> bool) ch s :
  all_chars p (remove_char ch s) = all_chars (fun c => p c || Ascii.eqb c ch) s.
Proof.
  induction s as [|c s IH]; simpl; [reflexivity|].
  destruct (Ascii.eqb c ch); simpl.
  - rewrite IH, orb_true_r. reflexivity.
  - rewrite IH, orb_false_r. reflexivity.
Qed.

Lemma is_empty_remove ch s :
  is_empty (remove_char ch s) = negb (any_char (fun c => negb (Ascii.eqb c ch)) s).
Proof.
  induction s as [|c s IH]; simpl; [reflexivity|].
  destruct (Ascii.eqb c ch); simpl; [exact IH | reflexivity].
Qed.

Lemma any_char_remove (p : ascii -> bool) ch s :
  any_char p (remove_char ch s) = any_char (fun c => p c && negb (Ascii.eqb c ch)) s.
Proof.
  induction s as [|c s IH]; simpl; [reflexivity|].
  destruct (Ascii.eqb c ch); simpl.
  - rewrite IH, andb_false_r. reflexivity.
  - rewrite IH, andb_true_r. reflexivity.
Qed.

Lemma all_chars_ext (p q : ascii -> bool) s :
  (forall c, p c = q c) -> all_chars p s = all_chars q s.
Proof. intros E. induction s as [|c s IH]; simpl; [|rewrite E, IH]; reflexivity. Qed.

Lemma str_isalnum_unfold s :
  str_isalnum s = negb (is_empty s) && all_chars isalnum s.
Proof. destruct s; reflexivity. Qed.

Lemma hyphen_not_alnum c : Ascii.eqb c "-" = true -> isalnum c = false.
Proof. intros H. apply eqb_char_eq in H. subst. reflexivity. Qed.

Lemma underscore_not_alnum c : Ascii.eqb c "_" = true -> isalnum c = false.
Proof. intros H. apply eqb_char_eq in H. subst. reflexivity. Qed.

(** Among permitted characters the alphanumeric ones are those that
    survive the two [replace] calls. *)
Lemma any_kept_is_alnum s :
  all_chars Spec.name_char s = true ->
  any_char (fun c => negb (Ascii.eqb c "_") && negb (Ascii.eqb c "-")) s
  = any_char isalnum s.
Proof.
  induction s as [|c s IH]; simpl; [reflexivity|].
  intros H. apply andb_true_iff in H as [Hc Hs]. rewrite (IH Hs).
  f_equal. unfold Spec.name_char in Hc.
  destruct (Ascii.eqb c "-") eqn:E1.
  { rewrite (hyphen_not_alnum _ E1), andb_false_r. reflexivity. }
  destruct (Ascii.eqb c "_") eqn:E2.
  { rewrite (underscore_not_alnum _ E2). reflexivity. }
  rewrite !orb_false_r in Hc. rewrite Hc. reflexivity.
Qed.

Lemma name_accepted_char_form name :
  InitSkill.name_accepted name
  = all_chars Spec.name_char name && any_char isalnum name.
Proof.
  unfold InitSkill.name_accepted.
  rewrite str_isalnum_unfold, is_empty_remove, negb_involutive.
  rewrite any_char_remove, !all_chars_remove.
  rewrite (all_chars_ext _ Spec.name_char)
    by (intros c; unfold Spec.name_char;
        destruct (isalnum c), (Ascii.eqb c "_"), (Ascii.eqb c "-"); reflexivity).
  rewrite andb_comm.
  destruct (all_chars Spec.name_char name) eqn:E; [|reflexivity].
  simpl. rewrite <- (any_kept_is_alnum _ E). reflexivity.
Qed.

Lemma ascii_name_char c :
  Spec.is_ascii c = true -> Spec.name_char c = Spec.name_regex_char c.
Proof.
  destruct c as [[] [] [] [] [] [] [] []]; intros H;
    try discriminate H; reflexivity.
Qed.

Lemma any_char_nonempty p s : any_char p s = true -> is_empty s = false.
Proof. destruct s; [discriminate | reflexivity]. Qed.

(** On ASCII names the test of [main] is the regular expression of the
    specification together with the demand for one letter or digit. *)
Lemma ascii_name_accepted name :
  all_chars Spec.is_ascii name = true ->
  InitSkill.name_accepted name
  = Spec.matches_name_regex name && any_char isalnum name.
Proof.
  intros Ha. rewrite name_accepted_char_form. unfold Spec.matches_name_regex.
  assert (E : all_chars Spec.name_char name = all_chars Spec.name_regex_char name).
  { induction name as [|c s IH]; [reflexivity|]. simpl in *.
    apply andb_true_iff in Ha as [Hc Hs].
    rewrite (ascii_name_char c Hc), (IH Hs). reflexivity. }
  rewrite E. destruct (any_char isalnum name) eqn:Hany.
  - rewrite (any_char_nonempty _ _ Hany). reflexivity.
  - rewrite !andb_false_r. reflexivity.
Qed.

End StringFacts.

(** ** Splitting and trimming texts built by concatenation *)

Section SplitFacts.
Import PyStr.

Lemma drop_prefix_app_none sep s c t :
  all_chars (fun a => negb (Ascii.eqb a c)) sep = true ->
  drop_prefix sep s = None ->
  drop_prefix sep (s +:+ String c t) = None.
Proof.
  revert s. induction sep as [|a sep IH]; intros s Hc H; [discriminate|].
  simpl in Hc. apply andb_true_iff in Hc as [Ha Hsep].
  destruct s as [|b s]; simpl in *.
  - apply negb_true_iff in Ha. rewrite Ha. reflexivity.
  - destruct (Ascii.eqb a b); [apply IH; assumption | reflexivity].
Qed.

Lemma partition_none_inv sep c s :
  partition sep (String c s) = None ->
  drop_prefix sep (String c s) = None /\ partition sep s = None.
Proof.
  cbn [partition]. destruct (drop_prefix sep (String c s)); [discriminate|].
  destruct (partition sep s) as [[a b]|]; [discriminate|]. split; reflexivity.
Qed.

(** No occurrence of [sep] straddles the end of [s] when the next
    character is foreign to [sep]. *)
Lemma partition_app_none sep s c t :
  all_chars (fun a => negb (Ascii.eqb a c)) sep = true ->
  partition sep s = None ->
  partition sep (s +:+ String c t)
  = match partition sep (String c t) with
    | Some (a, b) => Some (s +:+ a, b)
    | None => None
    end.
Proof.
  intros Hc. remember (partition sep (String c t)) as rhs eqn:Er.
  induction s as [|x s IH]; intros H.
  - change ("" +:+ String c t) with (String c t). rewrite <- Er.
    destruct rhs as [[a b]|]; reflexivity.
  - apply partition_none_inv in H as [Hd Hp].
    change (String x s +:+ String c t) with (String x (s +:+ String c t)).
    cbn [partition].
    change (String x (s +:+ String c t)) with (String x s +:+ String c t).
    rewrite (drop_prefix_app_none _ _ _ _ Hc Hd).
    rewrite (IH Hp). destruct rhs as [[a b]|]; reflexivity.
Qed.

Lemma partition_skip a sep c s :
  Ascii.eqb a c = false ->
  partition (String a sep) (String c s)
  = match partition (String a sep) s with
    | Some (x, y) => Some (String c x, y)
    | None => None
    end.
Proof. intros H. cbn [partition drop_prefix]. rewrite H. reflexivity. Qed.

Lemma is_empty_app_r a b : is_empty b = false -> is_empty (a +:+ b) = false.
Proof. destruct a; simpl; [tauto | reflexivity]. Qed.

Lemma rstrip_app a b :
  is_empty (rstrip b) = false -> rstrip (a +:+ b) = a +:+ rstrip b.
Proof.
  intros H. induction a as [|c a IH]; [reflexivity|].
  change (String c a +:+ b) with (String c (a +:+ b)). cbn [rstrip].
  rewrite IH. pose proof (is_empty_app_r a _ H) as E.
  change (String c a +:+ rstrip b) with (String c (a +:+ rstrip b)).
  destruct (a +:+ rstrip b); [discriminate | reflexivity].
Qed.

Lemma rstrip_keeps_nonspace c s :
  isspace c = false -> is_empty (rstrip (String c s)) = false.
Proof.
  intros H. cbn [rstrip]. destruct (rstrip s); [rewrite H|]; reflexivity.
Qed.

Lemma space_not_name_char c : Ascii.eqb " " c = true -> Spec.name_char c = false.
Proof. intros H. apply eqb_char_eq in H. subst. reflexivity. Qed.

Lemma permitted_name_has_no_space s :
  all_chars Spec.name_char s = true -> contains " " s = false.
Proof.
  unfold contains. induction s as [|c s IH]; [reflexivity|].
  simpl all_chars. intros H. apply andb_true_iff in H as [Hc Hs].
  cbn [partition drop_prefix].
  destruct (Ascii.eqb " " c) eqn:E.
  { rewrite (space_not_name_char _ E) in Hc. discriminate. }
  specialize (IH Hs). destruct (partition " " s) as [[a b]|]; [discriminate | reflexivity].
Qed.

End SplitFacts.

(** ** The document the initializer writes *)

Section TemplateFacts.
Import PyStr InitSkill Reference.

Lemma template_rest_partition skill_title :
  partition "---"
    (newline +:+ "description: " +:+ TEMPLATE_DESCRIPTION +:+ newline +:+ "---" +:+ newline +:+ newline
       +:+ "# " +:+ skill_title +:+ TEMPLATE_BODY)
  = Some (newline +:+ "description: " +:+ TEMPLATE_DESCRIPTION +:+ newline,
          newline +:+ newline +:+ "# " +:+ skill_title +:+ TEMPLATE_BODY).
Proof. reflexivity. Qed.

(** With no marker inside the name, the markers found are the two of
    the template. *)
Lemma template_split name skill_title :
  partition "---" name = None ->
  split "---" 2 (SKILL_TEMPLATE name skill_title)
  = [ "";
      newline +:+ "name: " +:+ name +:+ newline +:+ "description: " +:+ TEMPLATE_DESCRIPTION +:+ newline;
      newline +:+ newline +:+ "# " +:+ skill_title +:+ TEMPLATE_BODY ].
Proof.
  intros H.
  set (rest := newline +:+ "description: " +:+ TEMPLATE_DESCRIPTION +:+ newline +:+ "---"
                 +:+ newline +:+ newline +:+ "# " +:+ skill_title +:+ TEMPLATE_BODY).
  change (SKILL_TEMPLATE name skill_title)
    with ("---" +:+ newline +:+ "name: " +:+ name +:+ rest).
  change (split "---" 2 ("---" +:+ newline +:+ "name: " +:+ name +:+ rest))
    with ("" :: split "---" 1 (newline +:+ "name: " +:+ name +:+ rest)).
  f_equal. cbn [split].
  assert (P : partition "---" (newline +:+ "name: " +:+ name +:+ rest)
              = Some (newline +:+ "name: " +:+ name +:+ newline +:+ "description: "
                        +:+ TEMPLATE_DESCRIPTION +:+ newline,
                      newline +:+ newline +:+ "# " +:+ skill_title +:+ TEMPLATE_BODY)).
  { change (newline +:+ "name: " +:+ name +:+ rest)
      with (String "010" (String "n" (String "a" (String "m" (String "e"
              (String ":" (String " " (name +:+ rest)))))))).
    rewrite !partition_skip by reflexivity.
    change rest with (String "010" ("description: " +:+ TEMPLATE_DESCRIPTION +:+ newline
                        +:+ "---" +:+ newline +:+ newline +:+ "# " +:+ skill_title
                        +:+ TEMPLATE_BODY)).
    rewrite partition_app_none by (reflexivity || exact H).
    change (String "010" ("description: " +:+ TEMPLATE_DESCRIPTION +:+ newline
                        +:+ "---" +:+ newline +:+ newline +:+ "# " +:+ skill_title
                        +:+ TEMPLATE_BODY)) with rest.
    unfold rest. rewrite template_rest_partition. reflexivity. }
  rewrite P. reflexivity.
Qed.

(** The text between the markers, trimmed. *)
Lemma template_header name :
  all_chars Spec.name_char name = true ->
  strip (newline +:+ "name: " +:+ name +:+ newline +:+ "description: "
           +:+ TEMPLATE_DESCRIPTION +:+ newline)
  = "name: " +:+ name +:+ newline +:+ "description: " +:+ TEMPLATE_DESCRIPTION.
Proof.
  intros _. unfold strip.
  change (lstrip (newline +:+ "name: " +:+ name +:+ newline +:+ "description: "
                    +:+ TEMPLATE_DESCRIPTION +:+ newline))
    with ("name: " +:+ (name +:+ (newline +:+ "description: " +:+ TEMPLATE_DESCRIPTION +:+ newline))).
  assert (E : rstrip (newline +:+ "description: " +:+ TEMPLATE_DESCRIPTION +:+ newline)
              = newline +:+ "description: " +:+ TEMPLATE_DESCRIPTION) by reflexivity.
  rewrite rstrip_app.
  - rewrite rstrip_app; [rewrite E; reflexivity | rewrite E; reflexivity].
  - rewrite rstrip_app; [|rewrite E; reflexivity].
    apply is_empty_app_r. rewrite E. reflexivity.
Qed.

(** The body is never empty: it starts with the heading mark. *)
Lemma template_body_not_empty skill_title :
  is_empty (strip (newline +:+ newline +:+ "# " +:+ skill_title +:+ TEMPLATE_BODY)) = false.
Proof.
  unfold strip.
  change (lstrip (newline +:+ newline +:+ "# " +:+ skill_title +:+ TEMPLATE_BODY))
    with (String "#" (" " +:+ skill_title +:+ TEMPLATE_BODY)).
  apply rstrip_keeps_nonspace. reflexivity.
Qed.

Lemma template_description_long :
  (String.length (strip TEMPLATE_DESCRIPTION) <? 20)%nat = false.
Proof. vm_compute. reflexivity. Qed.

Lemma template_description_todo : contains "TODO" TEMPLATE_DESCRIPTION = true.
Proof. vm_compute. reflexivity. Qed.

End TemplateFacts.

(** ** Facts about the file system operations *)

Section WorldFacts.
Import FS Spec.

Lemma node_at_put_eq w loc n : loc <> [] -> node_at (put w loc n) loc = Some n.
Proof.
  destruct loc; [congruence|]. intros _. unfold node_at, put. simpl.
  apply lookup_insert_eq.
Qed.

Lemma node_at_put_ne w loc loc' n :
  loc <> loc' -> node_at (put w loc n) loc' = node_at w loc'.
Proof.
  intros H. destruct loc'; [reflexivity|]. unfold node_at, put. simpl.
  apply lookup_insert_ne. exact H.
Qed.

Lemma locate_joinpath w p n : locate w (joinpath p n) = locate w p ++ [n].
Proof.
  unfold locate, joinpath. simpl. destruct (anchored p); [reflexivity|].
  apply app_assoc.
Qed.

Lemma locate_same_cwd w w' p : cwd w' = cwd w -> locate w' p = locate w p.
Proof. intros H. unfold locate. rewrite H. reflexivity. Qed.

Lemma name_joinpath p n : name (joinpath p n) = n.
Proof. unfold name, joinpath. simpl. apply last_last. Qed.

Lemma write_text_spec w p data w' :
  write_text w p data = Some w' ->
  touches_only (locate w p) w w'
  /\ node_at w' (locate w p) = Some (File data).
Proof.
  unfold write_text.
  destruct (node_at w (parent_loc (locate w p))) as [[|]|]; try discriminate.
  destruct (node_at w (locate w p)) as [[|]|] eqn:E; try discriminate;
    intros [= <-]; (split; [split; [reflexivity|]|]);
    try (intros l Hl; apply node_at_put_ne; congruence);
    apply node_at_put_eq; intros E0; rewrite E0 in E; discriminate.
Qed.

Lemma mkdir_spec w p w' :
  mkdir w p = Some w' -> touches_only (locate w p) w w'.
Proof.
  unfold mkdir.
  destruct (node_at w (locate w p)) as [[|]|]; try discriminate.
  - intros [= <-]. split; reflexivity.
  - destruct (node_at w (parent_loc _)) as [[|]|]; try discriminate.
    intros [= <-]. split; [reflexivity|].
    intros l Hl. apply node_at_put_ne. congruence.
Qed.

Lemma touch_spec w p w' :
  touch w p = Some w' -> touches_only (locate w p) w w'.
Proof.
  unfold touch.
  destruct (node_at w (parent_loc _)) as [[|]|]; try discriminate.
  destruct (node_at w (locate w p)) as [n|]; intros [= <-].
  - split; reflexivity.
  - split; [reflexivity|]. intros l Hl. apply node_at_put_ne. congruence.
Qed.

(** Making a directory with its parents touches only locations on the
    way, and ends with the directory in place. *)
Lemma mkdir_from_spec todo : forall w done w',
  mkdir_from w done todo = Some w' ->
  node_at w done = Some Dir ->
  cwd w' = cwd w
  /\ node_at w' (done ++ todo) = Some Dir
  /\ forall l, ~ l `prefix_of` (done ++ todo) -> node_at w' l = node_at w l.
Proof.
  induction todo as [|c rest IH]; intros w done w' H Hd.
  - injection H as <-. rewrite app_nil_r. repeat split. exact Hd.
  - cbn [mkdir_from] in H.
    replace (done ++ c :: rest) with ((done ++ [c]) ++ rest)
      by (rewrite <- app_assoc; reflexivity).
    destruct (node_at w (done ++ [c])) as [[|]|] eqn:E; [discriminate | |].
    + exact (IH _ _ _ H E).
    + assert (Hne : done ++ [c] <> []) by (destruct done; discriminate).
      destruct (IH _ _ _ H (node_at_put_eq _ _ _ Hne)) as (C & D & F).
      split; [exact C|]. split; [exact D|].
      intros l Hl. rewrite (F l Hl). apply node_at_put_ne.
      intros <-. apply Hl. apply prefix_app_r. reflexivity.
Qed.

Lemma mkdir_parents_spec w p w' :
  mkdir_parents w p = Some w' ->
  cwd w' = cwd w
  /\ node_at w' (locate w p) = Some Dir
  /\ forall l, ~ l `prefix_of` locate w p -> node_at w' l = node_at w l.
Proof.
  intros H. apply (mkdir_from_spec _ _ [] _ H). reflexivity.
Qed.

Lemma touches_only_keeps loc w w' l n :
  touches_only loc w w' -> l <> loc -> node_at w l = Some n -> node_at w' l = Some n.
Proof. intros [_ F] Hl Hn. rewrite (F l Hl). exact Hn. Qed.

Lemma app_one_ne_self (l : list string) x : l ++ [x] <> l.
Proof.
  intros E. apply (f_equal length) in E. rewrite length_app in E. simpl in E. lia.
Qed.

Lemma app_two_ne_self (l : list string) x y : l ++ [x] ++ [y] <> l.
Proof.
  intros E. apply (f_equal length) in E. rewrite !length_app in E. simpl in E. lia.
Qed.

Lemma app_two_ne_one (l : list string) x y z : (l ++ [x]) ++ [y] <> l ++ [z].
Proof.
  intros E. apply (f_equal length) in E. rewrite !length_app in E. simpl in E. lia.
Qed.

End WorldFacts.

(** ** What the initializer leaves behind *)

Section CreateFacts.
Import FS Spec InitSkill.

Variable title : string -> string.

Lemma holds_skill_step c L x loc w w' :
  holds_skill c L x w ->
  touches_only loc w w' ->
  loc <> L -> loc <> L ++ ["SKILL.md"] ->
  holds_skill c L x w'.
Proof.
  intros (C & D & M) [C' F] H1 H2. split; [congruence|]. split.
  - rewrite F by congruence. exact D.
  - rewrite F by congruence. exact M.
Qed.

Lemma create_files_spec name skill_dir w w' :
  create_files title name skill_dir w = Some w' ->
  holds_skill (cwd w) (locate w skill_dir)
    (SKILL_TEMPLATE name (title (PyStr.replace_char "-" " " name))) w'.
Proof.
  unfold create_files. intros H.
  apply bind_Some in H as (w1 & E1 & H).
  apply bind_Some in H as (w2 & E2 & H).
  apply bind_Some in H as (w3 & E3 & H).
  apply bind_Some in H as (w4 & E4 & H).
  apply bind_Some in H as (w5 & E5 & H).
  apply bind_Some in H as (w6 & E6 & H).
  apply bind_Some in H as (w7 & E7 & H).
  apply bind_Some in H as (w8 & E8 & H).
  apply mkdir_parents_spec in E1 as (C1 & D1 & _).
  apply write_text_spec in E2 as ([C2 F2] & M2).
  set (L := locate w skill_dir) in *.
  set (X := SKILL_TEMPLATE name (title (PyStr.replace_char "-" " " name))) in *.
  assert (L1 : forall u, cwd u = cwd w -> locate u skill_dir = L)
    by (intros u Hu; apply locate_same_cwd, Hu).
  assert (I2 : holds_skill (cwd w) L X w2).
  { split; [congruence|]. split.
    - rewrite F2, D1; [reflexivity|].
      rewrite locate_joinpath, (L1 w1 C1). intros E. symmetry in E.
      exact (app_one_ne_self _ _ E).
    - rewrite locate_joinpath, (L1 w1 C1) in M2. exact M2. }
  clear F2 M2 D1.
  apply mkdir_spec in E3. apply mkdir_spec in E4. apply mkdir_spec in E5.
  apply write_text_spec in E6 as [E6 _]. apply write_text_spec in E7 as [E7 _].
  apply write_text_spec in E8 as [E8 _]. apply touch_spec in H.
  assert (I3 : holds_skill (cwd w) L X w3).
  { eapply holds_skill_step; [exact I2 | exact E3 | |];
      rewrite locate_joinpath, (L1 w2 (proj1 I2));
      [apply app_one_ne_self | intros E; apply app_inv_head in E; discriminate]. }
  assert (I4 : holds_skill (cwd w) L X w4).
  { eapply holds_skill_step; [exact I3 | exact E4 | |];
      rewrite locate_joinpath, (L1 w3 (proj1 I3));
      [apply app_one_ne_self | intros E; apply app_inv_head in E; discriminate]. }
  assert (I5 : holds_skill (cwd w) L X w5).
  { eapply holds_skill_step; [exact I4 | exact E5 | |];
      rewrite locate_joinpath, (L1 w4 (proj1 I4));
      [apply app_one_ne_self | intros E; apply app_inv_head in E; discriminate]. }
  assert (I6 : holds_skill (cwd w) L X w6).
  { eapply holds_skill_step; [exact I5 | exact E6 | |];
      rewrite !locate_joinpath, (L1 w5 (proj1 I5));
      [rewrite <- app_assoc; apply app_two_ne_self | apply app_two_ne_one]. }
  assert (I7 : holds_skill (cwd w) L X w7).
  { eapply holds_skill_step; [exact I6 | exact E7 | |];
      rewrite !locate_joinpath, (L1 w6 (proj1 I6));
      [rewrite <- app_assoc; apply app_two_ne_self | apply app_two_ne_one]. }
  assert (I8 : holds_skill (cwd w) L X w8).
  { eapply holds_skill_step; [exact I7 | exact E8 | |];
      rewrite !locate_joinpath, (L1 w7 (proj1 I7));
      [rewrite <- app_assoc; apply app_two_ne_self | apply app_two_ne_one]. }
  eapply holds_skill_step; [exact I8 | exact H | |];
    rewrite !locate_joinpath, (L1 w8 (proj1 I8));
    [rewrite <- app_assoc; apply app_two_ne_self | apply app_two_ne_one].
Qed.

(** After a successful run the skill directory is there, with the
    formatted template as its [SKILL.md]. *)
Lemma created_world name output_path w w' :
  create_skill_structure title name output_path w = Created w' ->
  is_dir w' (joinpath output_path name) = true
  /\ read_text w' (joinpath (joinpath output_path name) "SKILL.md")
     = Some (SKILL_TEMPLATE name (title (PyStr.replace_char "-" " " name))).
Proof.
  unfold create_skill_structure.
  destruct (exists_ w _); [discriminate|].
  destruct (create_files title name _ w) as [w1|] eqn:E; [|discriminate].
  intros [= <-]. apply create_files_spec in E as (C & D & M).
  assert (L1 : locate w1 (joinpath output_path name)
               = locate w (joinpath output_path name))
    by (apply locate_same_cwd, C).
  assert (L2 : locate w1 (joinpath (joinpath output_path name) "SKILL.md")
               = locate w (joinpath output_path name) ++ ["SKILL.md"])
    by (rewrite (locate_joinpath w1 (joinpath output_path name)), L1; reflexivity).
  unfold is_dir, read_text, stat. rewrite L2, L1, D, M.
  split; reflexivity.
Qed.

End CreateFacts.

(** ** Facts about the validator *)

Section ValidatorFacts.
Import Yaml FS PackageSkill Spec.

Variable safe_load : string -> loaded.
Variable w : world.

Lemma extends_refl v : extends v v.
Proof.
  repeat split. exists [], []. rewrite !app_nil_r. repeat split.
Qed.

Lemma extends_trans v1 v2 v3 : extends v1 v2 -> extends v2 v3 -> extends v1 v3.
Proof.
  intros (P1 & N1 & le1 & lw1 & E1 & W1 & C1) (P2 & N2 & le2 & lw2 & E2 & W2 & C2).
  split; [congruence|]. split; [congruence|].
  exists (le1 ++ le2), (lw1 ++ lw2).
  rewrite E2, E1, W2, W1, !app_assoc. repeat split.
  rewrite forallb_app, C1, C2. reflexivity.
Qed.

Lemma extends_add_warning x v : extends v (add_warning x v).
Proof.
  repeat split. exists [], [x]. simpl. rewrite app_nil_r. repeat split.
Qed.

Lemma extends_add_error e v : content_error e = true -> extends v (add_error e v).
Proof.
  intros H. repeat split. exists [e], []. simpl. rewrite app_nil_r, H. repeat split.
Qed.

Lemma extends_fold_warnings xs v :
  extends v (fold_left (fun v x => add_warning x v) xs v).
Proof.
  revert v. induction xs as [|x xs IH]; intros v; simpl; [apply extends_refl|].
  eapply extends_trans; [apply extends_add_warning | apply IH].
Qed.

Lemma is_dir_exists p : is_dir w p = true -> exists_ w p = true.
Proof. unfold is_dir, exists_. destruct (stat w p) as [[]|]; congruence. Qed.

Lemma read_text_exists p data : read_text w p = Some data -> exists_ w p = true.
Proof. unfold read_text, exists_. destruct (stat w p) as [[]|]; congruence. Qed.

Lemma directory_check_passes v :
  is_dir w (skill_path v) = true -> _validate_directory_exists w v = (v, None).
Proof.
  intros H. unfold _validate_directory_exists.
  rewrite (is_dir_exists _ H), H. reflexivity.
Qed.

Lemma skill_md_check_passes v :
  exists_ w (joinpath (skill_path v) "SKILL.md") = true ->
  _validate_skill_md_exists w v = (v, None).
Proof. intros H. unfold _validate_skill_md_exists. rewrite H. reflexivity. Qed.

(** The checks on the two fields never raise [ValidationError]. *)
Lemma check_fields_outcome d name description v v' r :
  check_fields d name description v = (v', r) ->
  match r with
  | None => extends v v'
  | Some (ValidationError _) => False
  | Some (Uncaught _) => True
  end.
Proof.
  unfold check_fields.
  set (v1 := if negb (is_str (skill_name v) name) then _ else v).
  assert (X1 : extends v v1).
  { subst v1. destruct (negb _); [apply extends_add_warning | apply extends_refl]. }
  destruct (too_short description) as [short|]; [|intros [= <- <-]; exact I].
  set (v2 := if short then _ else v1).
  assert (X2 : extends v v2).
  { subst v2. destruct short; [|exact X1].
    eapply extends_trans; [exact X1 | apply extends_add_error; reflexivity]. }
  destruct (contains_str "TODO" description) as [todo|]; [|intros [= <- <-]; exact I].
  set (v3 := if todo then _ else v2).
  assert (X3 : extends v v3).
  { subst v3. destruct todo; [|exact X2].
    eapply extends_trans; [exact X2 | apply extends_add_error; reflexivity]. }
  destruct (List.filter _ _); intros [= <- <-]; [exact X3|].
  eapply extends_trans; [exact X3 | apply extends_add_warning].
Qed.

(** How the header check can end. *)
Lemma frontmatter_outcome v v' r :
  _validate_yaml_frontmatter safe_load w v = (v', r) ->
  match r with
  | None => extends v v'
  | Some (ValidationError e) => v' = v /\ structural e = true
  | Some (Uncaught _) => True
  end.
Proof.
  unfold _validate_yaml_frontmatter.
  destruct (read_text w _) as [content|]; [|intros [= <- <-]; exact I].
  destruct (negb (PyStr.startswith content "---")); [intros [= <- <-]; split; reflexivity|].
  destruct (PyStr.split "---" 2 content) as [|p0 [|p1 [|p2 rest]]];
    try (intros [= <- <-]; split; reflexivity).
  destruct (safe_load _) as [fm|msg]; [|intros [= <- <-]; split; reflexivity].
  destruct fm; try (intros [= <- <-]; split; reflexivity).
  destruct (get "name" items) as [nm|]; [|intros [= <- <-]; split; reflexivity].
  destruct (get "description" items) as [ds|]; [|intros [= <- <-]; split; reflexivity].
  intros H. pose proof (check_fields_outcome _ _ _ _ _ _ H) as X.
  destruct r as [[e|e]|]; [destruct X | exact I | exact X].
Qed.

Lemma when_outcome b f v :
  (forall u, extends u (f u)) ->
  exists v', when b f v = (v', None) /\ extends v v'.
Proof.
  intros Hf. unfold when. eexists; split; [reflexivity|].
  destruct b; [apply Hf | apply extends_refl].
Qed.

Lemma body_outcome v v' r :
  _validate_skill_body w v = (v', r) ->
  match r with
  | None => extends v v'
  | Some (ValidationError _) => False
  | Some (Uncaught _) => True
  end.
Proof.
  unfold _validate_skill_body.
  destruct (read_text w _) as [content|]; [|intros [= <- <-]; exact I].
  destruct (PyStr.split "---" 2 content) as [|p0 [|p1 [|p2 rest]]];
    try (intros [= <- <-]; apply extends_refl).
  destruct (PyStr.is_empty _).
  { intros [= <- <-]. apply extends_add_error. reflexivity. }
  unfold seq, when. intros [= <- <-].
  repeat match goal with
         | |- extends _ (if ?b then _ else _) =>
             destruct b; [eapply extends_trans; [|apply extends_add_warning]|]
         end; apply extends_refl.
Qed.

Lemma visit_resource_dir_extends has v dir_name :
  extends v (snd (visit_resource_dir w (has, v) dir_name)).
Proof.
  unfold visit_resource_dir.
  destruct (_ && _); [|apply extends_refl].
  destruct (resource_files w _); [apply extends_refl|].
  simpl. apply extends_fold_warnings.
Qed.

Lemma resources_outcome v :
  exists v', _validate_resources w v = (v', None) /\ extends v v'.
Proof.
  unfold _validate_resources. cbn [fold_left].
  pose proof (visit_resource_dir_extends false v "scripts") as X1.
  destruct (visit_resource_dir w (false, v) "scripts") as [h1 v1].
  pose proof (visit_resource_dir_extends h1 v1 "references") as X2.
  destruct (visit_resource_dir w (h1, v1) "references") as [h2 v2].
  pose proof (visit_resource_dir_extends h2 v2 "assets") as X3.
  destruct (visit_resource_dir w (h2, v2) "assets") as [h3 v3].
  simpl in *. unfold when. eexists; split; [reflexivity|].
  assert (X : extends v v3) by (eapply extends_trans; [|exact X3]; eapply extends_trans; eassumption).
  destruct (negb h3); [|exact X].
  eapply extends_trans; [exact X | apply extends_add_warning].
Qed.

(** The naming check, in full. *)
Lemma naming_outcome v :
  exists v',
    _validate_naming_conventions v = (v', None)
    /\ skill_path v' = skill_path v /\ skill_name v' = skill_name v
    /\ errors v' = errors v
         ++ (if PyStr.contains " " (skill_name v)
             then [ENameSpaces (skill_name v)] else [])
    /\ warnings v' = warnings v
         ++ (if PyStr.str_islower (skill_name v)
             then [] else [WNotLower (skill_name v)])
         ++ (if PyStr.contains "_" (skill_name v)
             then [WUnderscores (skill_name v)] else []).
Proof.
  unfold _validate_naming_conventions, seq, when.
  eexists; split; [reflexivity|].
  destruct (PyStr.str_islower (skill_name v)),
           (PyStr.contains "_" (skill_name v)),
           (PyStr.contains " " (skill_name v));
    simpl; rewrite ?app_nil_r, <- ?app_assoc; repeat split.
Qed.

End ValidatorFacts.

(** ** How a validation pass ends *)

Section PassFacts.
Import Yaml FS PackageSkill Spec.

Variable safe_load : string -> loaded.
Variable w : world.

Lemma run_checks_outcome v v' r :
  run_checks safe_load w v = (v', r) ->
  match r with
  | None => exists v3, extends v v3 /\ _validate_naming_conventions v3 = (v', None)
  | Some (ValidationError e) => v' = v /\ structural e = true
  | Some (Uncaught _) => True
  end.
Proof.
  unfold run_checks, seq.
  unfold _validate_directory_exists at 1.
  destruct (negb (exists_ w (skill_path v))); [intros [= <- <-]; split; reflexivity|].
  destruct (negb (is_dir w (skill_path v))); [intros [= <- <-]; split; reflexivity|].
  unfold ret at 1. unfold _validate_skill_md_exists at 1.
  destruct (negb (exists_ w _)); [intros [= <- <-]; split; reflexivity|].
  unfold ret at 1.
  destruct (_validate_yaml_frontmatter safe_load w v) as [v1 r1] eqn:E1.
  apply frontmatter_outcome in E1.
  destruct r1 as [[e|e]|]; [intros [= <- <-]; exact E1 | intros [= <- <-]; exact I |].
  destruct (_validate_skill_body w v1) as [v2 r2] eqn:E2.
  apply body_outcome in E2.
  destruct r2 as [[e|e]|]; [destruct E2 | intros [= <- <-]; exact I |].
  destruct (resources_outcome w v2) as (v3 & E3 & X3). rewrite E3.
  destruct (naming_outcome v3) as (v4 & E4 & _). rewrite E4.
  intros [= <- <-]. exists v3. split; [|exact E4].
  eapply extends_trans; [exact E1|]. eapply extends_trans; eassumption.
Qed.

(** A pass that is halted reports the one error it was halted with. *)
Lemma halted_pass_report p v' e :
  run_checks safe_load w (new_validator p) = (v', Some (ValidationError e)) ->
  validate safe_load w p = Returned false [e] [] /\ structural e = true.
Proof.
  intros H. unfold validate, validate_from. rewrite H.
  apply run_checks_outcome in H as [-> S]. split; [reflexivity | exact S].
Qed.

(** A pass that runs to the end reports the accumulated content errors,
    then what the naming check appends. *)
Lemma completed_pass_report p :
  snd (run_checks safe_load w (new_validator p)) = None ->
  exists le lw,
    forallb content_error le = true
    /\ validate safe_load w p
       = report {| skill_path := p; skill_name := name p;
                   errors := le ++ (if PyStr.contains " " (name p)
                                    then [ENameSpaces (name p)] else []);
                   warnings := lw
                     ++ (if PyStr.str_islower (name p) then [] else [WNotLower (name p)])
                     ++ (if PyStr.contains "_" (name p)
                         then [WUnderscores (name p)] else []) |}.
Proof.
  destruct (run_checks safe_load w (new_validator p)) as [v' r] eqn:H.
  simpl. intros ->. unfold validate, validate_from. rewrite H.
  apply run_checks_outcome in H as (v3 & (P3 & N3 & le & lw & E3 & W3 & C3) & H4).
  destruct (naming_outcome v3) as (v4 & E4 & P4 & N4 & Er & Wr).
  rewrite E4 in H4. injection H4 as <-.
  exists le, lw. split; [exact C3|].
  unfold report. rewrite Er, Wr, E3, W3, N3. reflexivity.
Qed.

(** A report without a structural error comes from a pass that ran
    all six checks. *)
Lemma report_without_structural p ok errs warns :
  validate safe_load w p = Returned ok errs warns ->
  existsb structural errs = false ->
  snd (run_checks safe_load w (new_validator p)) = None.
Proof.
  unfold validate, validate_from.
  destruct (run_checks safe_load w (new_validator p)) as [v' [[e|e]|]] eqn:H;
    [|discriminate|reflexivity].
  apply run_checks_outcome in H as [-> S].
  intros [= <- <- <-]. simpl. rewrite S. discriminate.
Qed.

(** The two shapes of a report: one structural error and nothing else,
    or the accumulated content errors followed by what the naming check
    appends. *)
Lemma report_shapes p ok errs warns :
  validate safe_load w p = Returned ok errs warns ->
  (exists e, structural e = true /\ ok = false /\ errs = [e] /\ warns = [])
  \/ (exists le lw,
        forallb content_error le = true
        /\ errs = le ++ (if PyStr.contains " " (name p)
                         then [ENameSpaces (name p)] else [])
        /\ warns = lw
             ++ (if PyStr.str_islower (name p) then [] else [WNotLower (name p)])
             ++ (if PyStr.contains "_" (name p)
                 then [WUnderscores (name p)] else [])).
Proof.
  intros Hv.
  destruct (run_checks safe_load w (new_validator p)) as [v' [[e|e]|]] eqn:H.
  - destruct (halted_pass_report _ _ _ H) as [V S]. rewrite V in Hv.
    injection Hv as <- <- <-. left. exists e. repeat split. exact S.
  - unfold validate, validate_from in Hv. rewrite H in Hv. discriminate.
  - destruct (completed_pass_report p) as (le & lw & C & V); [rewrite H; reflexivity|].
    rewrite V in Hv. unfold report in Hv. simpl in Hv.
    injection Hv as _ <- <-. right. exists le, lw. repeat split. exact C.
Qed.

End PassFacts.

Lemma uncased_not_lower b s :
  PyStr.any_char PyStr.iscased s = false -> PyStr.islower_from b s = b.
Proof.
  revert b. induction s as [|c s IH]; intros b; simpl; [reflexivity|].
  intros H. apply orb_false_iff in H as [Hc Hs].
  unfold PyStr.iscased in Hc. apply orb_false_iff in Hc as [Hu Hl].
  rewrite Hu, Hl, orb_false_r. apply IH, Hs.
Qed.

Lemma content_not_naming le :
  forallb Spec.content_error le = true -> existsb Spec.naming_error le = false.
Proof.
  induction le as [|e le IH]; simpl; [reflexivity|].
  intros H. apply andb_true_iff in H as [He Hl]. rewrite (IH Hl).
  destruct e; simpl in *; congruence.
Qed.

(** ** A pass over a header that has both fields *)

Section FieldsFacts.
Import Yaml FS PackageSkill Spec.

Variable safe_load : string -> loaded.
Variable w : world.

Lemma visit_resource_dir_keeps has v dir_name :
  let v' := snd (visit_resource_dir w (has, v) dir_name) in
  skill_path v' = skill_path v /\ skill_name v' = skill_name v
  /\ errors v' = errors v.
Proof.
  unfold visit_resource_dir.
  destruct (_ && _); [|repeat split].
  destruct (resource_files w _); [repeat split|].
  simpl. generalize (example_warnings (skill_path v) (p :: l)). intros xs.
  revert v. induction xs as [|x xs IH]; intros v; simpl; [repeat split|].
  destruct (IH (add_warning x v)) as (P & N & E). repeat split; assumption.
Qed.

Lemma resources_keeps_errors v :
  exists v', _validate_resources w v = (v', None)
    /\ skill_path v' = skill_path v /\ skill_name v' = skill_name v
    /\ errors v' = errors v.
Proof.
  unfold _validate_resources. cbn [fold_left].
  pose proof (visit_resource_dir_keeps false v "scripts") as X1.
  destruct (visit_resource_dir w (false, v) "scripts") as [h1 v1].
  pose proof (visit_resource_dir_keeps h1 v1 "references") as X2.
  destruct (visit_resource_dir w (h1, v1) "references") as [h2 v2].
  pose proof (visit_resource_dir_keeps h2 v2 "assets") as X3.
  destruct (visit_resource_dir w (h2, v2) "assets") as [h3 v3].
  simpl in *. destruct X1 as (P1 & N1 & E1), X2 as (P2 & N2 & E2), X3 as (P3 & N3 & E3).
  unfold when. eexists; split; [reflexivity|].
  destruct (negb h3); simpl; repeat split; congruence.
Qed.

(** Body, resources and naming, on a document that was already read. *)
Lemma tail_checks v content p0 p1 p2 rest :
  read_text w (joinpath (skill_path v) "SKILL.md") = Some content ->
  PyStr.split "---" 2 content = p0 :: p1 :: p2 :: rest ->
  exists v',
    (_validate_skill_body w ;; _validate_resources w ;;
     _validate_naming_conventions) v = (v', None)
    /\ errors v' = errors v
         ++ (if PyStr.is_empty (PyStr.strip p2) then [EBodyEmpty] else [])
         ++ (if PyStr.contains " " (skill_name v)
             then [ENameSpaces (skill_name v)] else []).
Proof.
  intros Hr Hp. unfold seq at 1.
  assert (exists v1, _validate_skill_body w v = (v1, None)
            /\ skill_path v1 = skill_path v /\ skill_name v1 = skill_name v
            /\ errors v1 = errors v
                 ++ (if PyStr.is_empty (PyStr.strip p2) then [EBodyEmpty] else []))
    as (v1 & -> & P1 & N1 & E1).
  { unfold _validate_skill_body. rewrite Hr, Hp.
    destruct (PyStr.is_empty (PyStr.strip p2)).
    - eexists; split; [reflexivity|]. repeat split.
    - unfold seq, when. eexists; split; [reflexivity|].
      rewrite app_nil_r.
      repeat match goal with |- context [if ?b then _ else _] => destruct b end;
        repeat split. }
  unfold seq.
  destruct (resources_keeps_errors v1) as (v2 & -> & P2 & N2 & E2).
  destruct (naming_outcome v2) as (v3 & -> & P3 & N3 & E3 & _).
  exists v3. split; [reflexivity|].
  rewrite E3, E2, E1, N2, N1, <- app_assoc. reflexivity.
Qed.

Section WithDocument.

Variables (p : Path) (content p0 p1 p2 : string) (rest : list string).
Variables (d : list (value * value)) (nm ds : value).

Hypothesis Hdir : is_dir w p = true.
Hypothesis Hread : read_text w (joinpath p "SKILL.md") = Some content.
Hypothesis Hstart : PyStr.startswith content "---" = true.
Hypothesis Hsplit : PyStr.split "---" 2 content = p0 :: p1 :: p2 :: rest.
Hypothesis Hload : safe_load (PyStr.strip p1) = Loaded (YMap d).
Hypothesis Hname : get "name" d = Some nm.
Hypothesis Hdesc : get "description" d = Some ds.

Lemma pass_reaches_fields :
  run_checks safe_load w (new_validator p)
  = (check_fields d nm ds ;; _validate_skill_body w ;; _validate_resources w ;;
     _validate_naming_conventions) (new_validator p).
Proof.
  unfold run_checks. unfold seq at 1.
  rewrite directory_check_passes by exact Hdir.
  unfold seq at 1.
  rewrite skill_md_check_passes by (exact (read_text_exists _ _ _ Hread)).
  unfold seq at 1 3. unfold _validate_yaml_frontmatter. simpl skill_path.
  rewrite Hread, Hstart, Hsplit, Hload, Hname, Hdesc. reflexivity.
Qed.

(** When the field checks come back, so does the whole pass, with the
    errors of the field checks first. *)
Lemma pass_after_fields v1 :
  check_fields d nm ds (new_validator p) = (v1, None) ->
  exists warns,
    let errs := errors v1
         ++ (if PyStr.is_empty (PyStr.strip p2) then [EBodyEmpty] else [])
         ++ (if PyStr.contains " " (name p) then [ENameSpaces (name p)] else []) in
    validate safe_load w p
    = Returned (match errs with [] => true | _ => false end) errs warns.
Proof.
  intros Hf. pose proof (check_fields_outcome _ _ _ _ _ _ Hf) as (P1 & N1 & _).
  simpl in P1, N1.
  destruct (tail_checks v1 content p0 p1 p2 rest) as (v' & Ht & E); [|exact Hsplit|].
  { rewrite P1. exact Hread. }
  unfold validate, validate_from. rewrite pass_reaches_fields.
  unfold seq at 1. rewrite Hf, Ht. unfold report.
  exists (warnings v'). simpl. rewrite E, N1. reflexivity.
Qed.


End WithDocument.

Lemma too_short_str s :
  too_short (YStr s) = Some (String.length (PyStr.strip s) <? 20)%nat.
Proof.
  unfold too_short. destruct s; reflexivity.
Qed.

(** The field checks on a string description. *)
Lemma check_fields_str d nm s v :
  exists v1,
    check_fields d nm (YStr s) v = (v1, None)
    /\ errors v1 = errors v
         ++ (if (String.length (PyStr.strip s) <? 20)%nat then [EDescTooShort] else [])
         ++ (if PyStr.contains "TODO" s then [EDescTodo] else []).
Proof.
  unfold check_fields. rewrite too_short_str. simpl contains_str. cbv iota.
  destruct (negb (is_str (skill_name v) nm)),
           (String.length (PyStr.strip s) <? 20)%nat,
           (PyStr.contains "TODO" s),
           (List.filter _ _);
    eexists; (split; [reflexivity|]); simpl; rewrite ?app_nil_r, <- ?app_assoc; reflexivity.
Qed.



End FieldsFacts.

(** ** Facts about the packager *)

Section PackagerFacts.
Import FS Spec PackageSkill.

Variable zip_bytes : list member -> string.
Variable zip_partial : list member -> string.

Lemma below_inv (base loc : list string) :
  below base loc = true ->
  loc = base ++ drop (length base) loc /\ drop (length base) loc <> [].
Proof.
  unfold below. intros H. apply andb_true_iff in H as [Hp Hn].
  apply bool_decide_eq_true in Hp as [k ->]. apply bool_decide_eq_true in Hn.
  rewrite drop_app_length. split; [reflexivity|].
  intros ->. apply Hn. apply app_nil_r.
Qed.

Lemma below_app (base d : list string) : d <> [] -> below base (base ++ d) = true.
Proof.
  intros H. unfold below. apply andb_true_iff. split; apply bool_decide_eq_true.
  - exists d. reflexivity.
  - intros E. apply H. apply (app_inv_head base). rewrite app_nil_r. exact E.
Qed.

Lemma below_prefix (base loc : list string) : below base loc = true -> base `prefix_of` loc.
Proof.
  intros H. apply below_inv in H as [E _]. exists (drop (length base) loc). exact E.
Qed.

Lemma locate_extension w p d :
  locate w {| anchored := anchored p; parts := parts p ++ d |} = locate w p ++ d.
Proof.
  unfold locate. simpl. destruct (anchored p); [reflexivity | apply app_assoc].
Qed.

(** The walk, entry by entry: with the archive outside the directory,
    what it adds is what [entry_of] says. *)
Lemma walk_members w skill_path package_path :
  ~ locate w skill_path `prefix_of` locate w package_path ->
  forall l acc,
    (forall loc n, In (loc, n) l -> files w !! loc = Some n) ->
    fold_left (add_entry zip_partial w skill_path package_path)
      (omap (fun '(loc, _) =>
               if below (locate w skill_path) loc
               then Some {| anchored := anchored skill_path;
                            parts := parts skill_path
                                       ++ drop (length (locate w skill_path)) loc |}
               else None) l) acc
    = acc ++ omap (entry_of (locate w skill_path)) l.
Proof.
  intros Hout. set (base := locate w skill_path).
  induction l as [|[loc n] l IH]; intros acc Hl; [symmetry; apply app_nil_r|].
  cbn [omap list_omap entry_of].
  assert (Hl' : forall loc n, In (loc, n) l -> files w !! loc = Some n)
    by (intros; apply Hl; right; assumption).
  destruct (below base loc) eqn:Hb; [|apply IH, Hl'].
  cbn [fold_left]. rewrite (IH _ Hl').
  destruct (below_inv _ _ Hb) as [Eloc Hd].
  set (d := drop (length base) loc) in *.
  assert (Hst : stat w {| anchored := anchored skill_path;
                          parts := parts skill_path ++ d |} = Some n).
  { unfold stat. rewrite locate_extension. fold base. rewrite <- Eloc.
    unfold node_at. destruct loc; [destruct base; discriminate|].
    apply Hl. left. reflexivity. }
  unfold add_entry. rewrite Hst. destruct n as [data|]; [|reflexivity].
  rewrite locate_extension. fold base. rewrite <- Eloc.
  rewrite bool_decide_eq_false_2.
  2:{ intros E. apply Hout. rewrite <- E. apply below_prefix, Hb. }
  unfold relative_to. simpl parts. rewrite drop_app_length.
  rewrite <- app_assoc. reflexivity.
Qed.

Lemma entry_of_some (base loc : list string) n (arcname : list string) data :
  entry_of base (loc, n) = Some (arcname, data) ->
  loc = base ++ arcname /\ arcname <> [] /\ n = File data.
Proof.
  unfold entry_of. destruct (below base loc) eqn:Hb; [|discriminate].
  destruct n as [x|]; [|discriminate]. intros [= <- <-].
  destruct (below_inv _ _ Hb) as [E Hd]. repeat split; assumption.
Qed.

Lemma members_elem (base : list string) (m : gmap (list string) node)
    (arcname : list string) (data : string) :
  (arcname, data) ∈ omap (entry_of base) (map_to_list m)
  <-> arcname <> [] /\ m !! (base ++ arcname) = Some (File data).
Proof.
  rewrite list_elem_of_omap. split.
  - intros ([loc n] & Hin & He). apply elem_of_map_to_list in Hin.
    apply entry_of_some in He as (-> & Hd & ->). split; assumption.
  - intros [Hd Hm]. exists (base ++ arcname, File data). split.
    + apply elem_of_map_to_list. exact Hm.
    + unfold entry_of. rewrite below_app by exact Hd.
      rewrite drop_app_length. reflexivity.
Qed.

Lemma members_names_nodup (base : list string) (l : list (list string * node)) :
  NoDup l.*1 -> NoDup (omap (entry_of base) l).*1.
Proof.
  induction l as [|[loc n] l IH]; intros Hnd; [constructor|].
  simpl in Hnd. apply NoDup_cons in Hnd as [Hnotin Hnd].
  cbn [omap list_omap].
  destruct (entry_of base (loc, n)) as [[arcname data]|] eqn:He; [|apply IH, Hnd].
  simpl. apply NoDup_cons. split; [|apply IH, Hnd].
  intros Hin. apply list_elem_of_fmap in Hin as ([a' x'] & Ea & Hin').
  simpl in Ea. subst a'.
  apply list_elem_of_omap in Hin' as ([loc' n'] & Hl' & He').
  apply entry_of_some in He as (-> & _), He' as (-> & _).
  apply Hnotin. apply list_elem_of_fmap. exists (base ++ arcname, n'). split; [reflexivity | exact Hl'].
Qed.

(** The steps of [package], named. *)
Lemma package_inv skill_path output_dir w package_path members w' :
  package zip_bytes zip_partial skill_path output_dir w
  = Packaged package_path members w' ->
  exists w1 w2,
    mkdir_parents w output_dir = Some w1
    /\ package_path = joinpath output_dir (name skill_path +:+ ".skill")
    /\ write_text w1 package_path "" = Some w2
    /\ members = fold_left (add_entry zip_partial w2 skill_path package_path)
                   (rglob w2 skill_path) []
    /\ w' = put w2 (locate w2 package_path) (File (zip_bytes members)).
Proof.
  unfold package.
  destruct (mkdir_parents w output_dir) as [w1|]; [|discriminate].
  destruct (write_text w1 _ "") as [w2|] eqn:E; [|discriminate].
  intros [= <- <- <-]. exists w1, w2. repeat split. exact E.
Qed.

(** With no file on the way, the directory and its parents get made. *)
Lemma mkdir_from_succeeds todo : forall w done,
  (forall l data, l `prefix_of` (done ++ todo) -> node_at w l <> Some (File data)) ->
  exists w', mkdir_from w done todo = Some w'.
Proof.
  induction todo as [|c rest IH]; intros w done H; [eexists; reflexivity|].
  cbn [mkdir_from].
  assert (Hp : (done ++ [c]) `prefix_of` (done ++ c :: rest)).
  { exists rest. rewrite <- app_assoc. reflexivity. }
  destruct (node_at w (done ++ [c])) as [[data|]|] eqn:E.
  - exfalso. exact (H _ data Hp E).
  - apply IH. intros l data Hl. apply H.
    rewrite <- app_assoc in Hl. exact Hl.
  - apply IH. intros l data Hl.
    destruct (decide (l = done ++ [c])) as [->|Hne].
    + rewrite node_at_put_eq by (destruct done; discriminate). discriminate.
    + rewrite node_at_put_ne by congruence. apply H.
      rewrite <- app_assoc in Hl. exact Hl.
Qed.

Lemma prefix_is_take (l L : list string) : l `prefix_of` L -> l = take (length l) L.
Proof. intros [k ->]. rewrite take_app_length. reflexivity. Qed.

Lemma longer_not_prefix (l : list string) x : ~ (l ++ [x]) `prefix_of` l.
Proof.
  intros H. apply prefix_length in H. rewrite length_app in H. simpl in H. lia.
Qed.

(** When the output directory can be made and the archive's place is
    not taken by a directory, [package] goes through its steps. *)
Lemma package_runs skill_path output_dir w :
  let package_path := joinpath output_dir (name skill_path +:+ ".skill") in
  (forall k data, node_at w (take k (locate w output_dir)) <> Some (File data)) ->
  is_dir w package_path = false ->
  exists w1 w2,
    mkdir_parents w output_dir = Some w1
    /\ write_text w1 package_path "" = Some w2
    /\ package zip_bytes zip_partial skill_path output_dir w
       = Packaged package_path
           (fold_left (add_entry zip_partial w2 skill_path package_path)
              (rglob w2 skill_path) [])
           (put w2 (locate w2 package_path)
              (File (zip_bytes
                 (fold_left (add_entry zip_partial w2 skill_path package_path)
                    (rglob w2 skill_path) [])))).
Proof.
  intros package_path Hway Hnd.
  destruct (mkdir_from_succeeds (locate w output_dir) w []) as [w1 E1].
  { intros l data Hl. rewrite (prefix_is_take _ _ Hl). apply Hway. }
  fold (mkdir_parents w output_dir) in E1.
  destruct (mkdir_parents_spec _ _ _ E1) as (C1 & D1 & F1).
  assert (Lp : locate w1 package_path = locate w output_dir ++ [name skill_path +:+ ".skill"]).
  { unfold package_path. rewrite locate_joinpath, (locate_same_cwd _ _ _ C1). reflexivity. }
  assert (E2 : exists w2, write_text w1 package_path "" = Some w2).
  { unfold write_text. rewrite Lp. unfold parent_loc. rewrite removelast_last, D1.
    rewrite F1 by apply longer_not_prefix.
    unfold is_dir, stat, package_path in Hnd. rewrite locate_joinpath in Hnd.
    destruct (node_at w _) as [[|]|]; [eexists; reflexivity | discriminate | eexists; reflexivity]. }
  destruct E2 as [w2 E2]. exists w1, w2. split; [exact E1|]. split; [exact E2|].
  unfold package. rewrite E1. fold package_path. rewrite E2. reflexivity.
Qed.

End PackagerFacts.

(** ** The claims *)

Section Claims.
Import Yaml FS PackageSkill Spec Reference.

(** C4, as stated, fails: the name [_] matches [^[A-Za-z0-9_-]+$] and
    the initializer leaves with status 1. *)
Lemma underscore_name_rejected :
  matches_name_regex "_" = true
  /\ InitSkill.main title_ascii "_" (rel ["skills"]) w0 = InitSkill.Exit 1.
Proof. split; reflexivity. Qed.

(** C4, amended: the initializer goes on to create the skill exactly
    when every character of the name is alphanumeric, a hyphen or an
    underscore and at least one is alphanumeric; otherwise it leaves
    with status 1. *)
Theorem main_accepts_exactly (title : string -> string) name path w :
  InitSkill.main title name path w
  = if PyStr.all_chars name_char name && PyStr.any_char PyStr.isalnum name
    then InitSkill.create_skill_structure title name path w
    else InitSkill.Exit 1.
Proof.
  unfold InitSkill.main. rewrite name_accepted_char_form.
  destruct (_ && _); reflexivity.
Qed.

(** C7: on an existing directory without [SKILL.md], [validate] returns
    not-ok with exactly one error and no warning. *)
Theorem missing_skill_md_single_error safe_load w p :
  is_dir w p = true ->
  exists_ w (joinpath p "SKILL.md") = false ->
  validate safe_load w p = Returned false [ESkillMdMissing] [].
Proof.
  intros Hd Hm. unfold validate, validate_from, run_checks, seq.
  rewrite directory_check_passes by exact Hd.
  unfold _validate_skill_md_exists. simpl skill_path. rewrite Hm. reflexivity.
Qed.

Lemma missing_skill_md_witness :
  is_dir (bare_world "demo") (rel ["demo"]) = true
  /\ exists_ (bare_world "demo") (joinpath (rel ["demo"]) "SKILL.md") = false
  /\ validate yaml_lines (bare_world "demo") (rel ["demo"])
     = Returned false [ESkillMdMissing] [].
Proof.
  split; [reflexivity|]. split; [reflexivity|].
  apply missing_skill_md_single_error; reflexivity.
Defined.




(** C5, as stated, fails: the directory name has a space, and with no
    [SKILL.md] the one error reported is not from the naming check. *)
Lemma space_name_without_naming_error :
  PyStr.contains " " (name (rel ["my skill"])) = true
  /\ validate yaml_lines (bare_world "my skill") (rel ["my skill"])
     = Returned false [ESkillMdMissing] [].
Proof. split; vm_compute; reflexivity. Qed.

(** C5, amended: for a directory name with a space, whenever
    [validate] returns a report without a structural error (no earlier
    check halted the pass), the validation fails and the errors hold
    exactly one from the naming check, after whatever the other checks
    accumulated. *)
Theorem space_in_name_one_naming_error safe_load w p ok errs warns :
  PyStr.contains " " (name p) = true ->
  validate safe_load w p = Returned ok errs warns ->
  existsb structural errs = false ->
  ok = false
  /\ exists others,
       errs = others ++ [ENameSpaces (name p)]
       /\ existsb naming_error others = false.
Proof.
  intros Hsp Hv Hns.
  pose proof (report_without_structural safe_load w p ok errs warns Hv Hns) as Hrun.
  destruct (completed_pass_report safe_load w p Hrun) as (le & lw & C & V).
  rewrite Hsp, Hv in V. unfold report in V. simpl in V.
  injection V as -> -> _. split.
  - destruct (le ++ _) eqn:E; [destruct le; discriminate | reflexivity].
  - exists le. split; [reflexivity|]. apply content_not_naming, C.
Qed.

Lemma space_in_name_witness :
  PyStr.contains " " (name (rel ["my skill"])) = true
  /\ validate yaml_lines (skill_world "my skill" finished_md) (rel ["my skill"])
     = Returned false [ENameSpaces "my skill"]
         [WNameMismatch (YStr "demo") "my skill"; WBodyShort; WNoResources]
  /\ false = false
  /\ exists others,
       [ENameSpaces "my skill"] = others ++ [ENameSpaces (name (rel ["my skill"]))]
       /\ existsb naming_error others = false.
Proof.
  split; [reflexivity|]. split; [vm_compute; reflexivity|].
  apply (space_in_name_one_naming_error yaml_lines
           (skill_world "my skill" finished_md) (rel ["my skill"]) false
           [ENameSpaces "my skill"]
           [WNameMismatch (YStr "demo") "my skill"; WBodyShort; WNoResources]);
    vm_compute; reflexivity.
Defined.

(** C10, as stated, fails: the directory name [123] has no cased
    letter, and with no [SKILL.md] the report carries no warning. *)
Lemma uncased_name_without_warning :
  PyStr.any_char PyStr.iscased (name (rel ["123"])) = false
  /\ validate yaml_lines (bare_world "123") (rel ["123"])
     = Returned false [ESkillMdMissing] [].
Proof. split; vm_compute; reflexivity. Qed.

(** C10, amended: for a directory name without any cased letter,
    whenever [validate] returns a report without a structural error
    (no earlier check halted the pass), the report carries the
    should-be-lowercase warning. *)
Theorem uncased_name_lowercase_warning safe_load w p ok errs warns :
  PyStr.any_char PyStr.iscased (name p) = false ->
  validate safe_load w p = Returned ok errs warns ->
  existsb structural errs = false ->
  In (WNotLower (name p)) warns.
Proof.
  intros Hc Hv Hns.
  pose proof (report_without_structural safe_load w p ok errs warns Hv Hns) as Hrun.
  destruct (completed_pass_report safe_load w p Hrun) as (le & lw & C & V).
  unfold PyStr.str_islower in V. rewrite (uncased_not_lower _ _ Hc), Hv in V.
  unfold report in V. simpl in V. injection V as _ _ ->.
  apply in_or_app. right. left. reflexivity.
Qed.

Lemma uncased_name_witness :
  PyStr.any_char PyStr.iscased (name (rel ["123"])) = false
  /\ validate yaml_lines (skill_world "123" finished_md) (rel ["123"])
     = Returned true []
         [WNameMismatch (YStr "demo") "123"; WBodyShort; WNoResources;
          WNotLower "123"]
  /\ In (WNotLower (name (rel ["123"])))
       [WNameMismatch (YStr "demo") "123"; WBodyShort; WNoResources;
        WNotLower "123"].
Proof.
  split; [reflexivity|]. split; [vm_compute; reflexivity|].
  apply (uncased_name_lowercase_warning yaml_lines
           (skill_world "123" finished_md) (rel ["123"]) true []
           [WNameMismatch (YStr "demo") "123"; WBodyShort; WNoResources;
            WNotLower "123"]);
    vm_compute; reflexivity.
Defined.

(** C6, as stated, fails: the parsed header has a string description of
    nine characters, and the report holds no description-length error,
    because the header has no [name]. *)
Lemma short_description_without_length_error :
  yaml_lines "description: too short"
  = Loaded (YMap [(YStr "description", YStr "too short")])
  /\ validate yaml_lines (skill_world "demo" nameless_md) (rel ["demo"])
     = Returned false [ENoName] [].
Proof. split; vm_compute; reflexivity. Qed.

(** C6, amended: for a metadata document whose parsed header has a
    [name] field and a string [description] field, [validate] reports
    the description-length error exactly when the trimmed description
    has fewer than 20 characters. *)
Theorem description_length_error safe_load w p content p0 p1 p2 rest d nm s :
  is_dir w p = true ->
  read_text w (joinpath p "SKILL.md") = Some content ->
  PyStr.startswith content "---" = true ->
  PyStr.split "---" 2 content = p0 :: p1 :: p2 :: rest ->
  safe_load (PyStr.strip p1) = Loaded (YMap d) ->
  get "name" d = Some nm ->
  get "description" d = Some (YStr s) ->
  exists ok errs warns,
    validate safe_load w p = Returned ok errs warns
    /\ (In EDescTooShort errs <-> String.length (PyStr.strip s) < 20).
Proof.
  intros Hd Hr Hs Hp Hl Hn Hds.
  destruct (check_fields_str d nm s (new_validator p)) as (v1 & Hf & E1).
  destruct (pass_after_fields safe_load w p content p0 p1 p2 rest d nm (YStr s)
              Hd Hr Hs Hp Hl Hn Hds v1 Hf) as (warns & V).
  cbv zeta in V. rewrite V. do 3 eexists. split; [reflexivity|].
  rewrite E1. simpl errors. simpl app at 1.
  destruct (Nat.ltb_spec (String.length (PyStr.strip s)) 20) as [Hlt|Hge].
  - split; [intros _; exact Hlt | intros _; left; reflexivity].
  - split; [|lia]. intros Hin. exfalso.
    repeat match goal with
           | H : In _ (if ?b then _ else _) |- _ => destruct b
           | H : In _ (_ ++ _) |- _ => apply in_app_or in H as [H|H]
           | H : In _ (_ :: _) |- _ => destruct H as [H|H]; [discriminate|]
           | H : In _ [] |- _ => destruct H
           end.
Qed.

Lemma description_length_witness :
  (exists ok errs warns,
     validate yaml_lines
       (skill_world "demo" (described_md "description: Checks release logs"))
       (rel ["demo"]) = Returned ok errs warns
     /\ (In EDescTooShort errs
         <-> String.length (PyStr.strip "Checks release logs") < 20))
  /\ String.length (PyStr.strip "Checks release logs") = 19.
Proof.
  split; [|reflexivity].
  eapply (description_length_error yaml_lines
            (skill_world "demo" (described_md "description: Checks release logs"))
            (rel ["demo"])).
  - reflexivity.
  - vm_compute; reflexivity.
  - reflexivity.
  - vm_compute; reflexivity.
  - vm_compute; reflexivity.
  - reflexivity.
  - reflexivity.
Defined.

(** The two sides of the threshold, run. *)
Example nineteen_characters :
  validate yaml_lines
    (skill_world "demo" (described_md "description: Checks release logs"))
    (rel ["demo"])
  = Returned false [EDescTooShort] [WBodyShort; WNoResources].
Proof. vm_compute; reflexivity. Qed.

Example twenty_characters :
  validate yaml_lines
    (skill_world "demo" (described_md "description: Checks release notes"))
    (rel ["demo"])
  = Returned true [] [WBodyShort; WNoResources].
Proof. vm_compute; reflexivity. Qed.




(** A number and a null, run: the exceptions are the [AttributeError]
    of [strip] and the [TypeError] of [in]. *)
Example number_description :
  validate yaml_lines (skill_world "demo" (described_md "description: 42"))
    (rel ["demo"]) = Propagated AttributeError.
Proof. vm_compute; reflexivity. Qed.

Example null_description :
  validate yaml_lines (skill_world "demo" (described_md "description:"))
    (rel ["demo"]) = Propagated TypeError.
Proof. vm_compute; reflexivity. Qed.




(** A name with three hyphens in a row, run: the second marker is found
    inside the name, the header read stops there, and the one error is
    the missing description. *)
Example marker_inside_name :
  InitSkill.name_accepted "a---b" = true
  /\ exists w',
       InitSkill.main title_ascii "a---b" (rel ["skills"]) w0 = InitSkill.Created w'
       /\ validate yaml_lines w' (rel ["skills"; "a---b"])
          = Returned false [ENoDescription] [].
Proof.
  split; [reflexivity|]. eexists. split; vm_compute; reflexivity.
Qed.







End Claims.

(** ** Further facts about the initializer *)

Section InitMore.
Import FS Spec Shape InitSkill.

Variable title : string -> string.

Lemma permitted_name_lacks c s :
  name_char c = false ->
  PyStr.all_chars name_char s = true ->
  PyStr.contains (String c EmptyString) s = false.
Proof.
  intros Hc. unfold PyStr.contains. induction s as [|x s IH]; [reflexivity|].
  simpl PyStr.all_chars. intros H. apply andb_true_iff in H as [Hx Hs].
  cbn [PyStr.partition PyStr.drop_prefix].
  destruct (Ascii.eqb c x) eqn:E.
  { apply eqb_char_eq in E. subst. congruence. }
  specialize (IH Hs).
  destruct (PyStr.partition (String c "") s) as [[a b]|]; [discriminate | reflexivity].
Qed.

Lemma app_ne_self (l k : list string) : k <> [] -> l ++ k <> l.
Proof.
  intros Hk E. apply Hk. apply (app_inv_head l). rewrite app_nil_r. exact E.
Qed.

Lemma locate_joinpath2 w p a b :
  locate w (joinpath (joinpath p a) b) = locate w p ++ [a; b].
Proof. rewrite !locate_joinpath, <- app_assoc. reflexivity. Qed.

Lemma step_write w0 w p data w' :
  cwd w = cwd w0 -> write_text w p data = Some w' ->
  cwd w' = cwd w0 /\ touches_only (locate w0 p) w w'
  /\ node_at w' (locate w0 p) = Some (File data).
Proof.
  intros C H. apply write_text_spec in H as ([C' F] & N).
  rewrite (locate_same_cwd _ _ _ C) in F, N.
  split; [congruence|]. split; [split; assumption | exact N].
Qed.

Lemma step_mkdir w0 w p w' :
  cwd w = cwd w0 -> mkdir w p = Some w' ->
  cwd w' = cwd w0 /\ touches_only (locate w0 p) w w'
  /\ node_at w' (locate w0 p) = Some Dir.
Proof.
  intros C H. pose proof (mkdir_spec _ _ _ H) as [C' F].
  rewrite (locate_same_cwd _ _ _ C) in F.
  split; [congruence|]. split; [split; assumption|].
  unfold mkdir in H. rewrite (locate_same_cwd _ _ _ C) in H.
  destruct (node_at w (locate w0 p)) as [[|]|] eqn:E; try discriminate.
  - injection H as <-. exact E.
  - destruct (node_at w (parent_loc _)) as [[|]|]; try discriminate.
    injection H as <-. apply node_at_put_eq. intros E0. rewrite E0 in E. discriminate.
Qed.

Lemma step_touch w0 w p w' :
  cwd w = cwd w0 -> touch w p = Some w' ->
  cwd w' = cwd w0 /\ touches_only (locate w0 p) w w'
  /\ node_at w' (locate w0 p) <> None.
Proof.
  intros C H. pose proof (touch_spec _ _ _ H) as [C' F].
  rewrite (locate_same_cwd _ _ _ C) in F.
  split; [congruence|]. split; [split; assumption|].
  unfold touch in H. rewrite (locate_same_cwd _ _ _ C) in H.
  destruct (node_at w (parent_loc _)) as [[|]|]; try discriminate.
  destruct (node_at w (locate w0 p)) as [n|] eqn:E; injection H as <-.
  - rewrite E. discriminate.
  - rewrite node_at_put_eq; [discriminate|].
    intros E0. rewrite E0 in E. discriminate.
Qed.

(** Everything the run leaves behind, and what it leaves alone. *)
Lemma create_files_effect name skill_dir w w' :
  create_files title name skill_dir w = Some w' ->
  let L := locate w skill_dir in
  cwd w' = cwd w
  /\ node_at w' L = Some Dir
  /\ node_at w' (L ++ ["SKILL.md"])
     = Some (File (SKILL_TEMPLATE name (title (PyStr.replace_char "-" " " name))))
  /\ node_at w' (L ++ ["scripts"]) = Some Dir
  /\ node_at w' (L ++ ["references"]) = Some Dir
  /\ node_at w' (L ++ ["assets"]) = Some Dir
  /\ node_at w' (L ++ ["scripts"; "example.py"]) = Some (File EXAMPLE_SCRIPT)
  /\ node_at w' (L ++ ["references"; "example.md"]) = Some (File EXAMPLE_REFERENCE)
  /\ node_at w' (L ++ ["assets"; "example-template.md"]) = Some (File EXAMPLE_ASSET)
  /\ node_at w' (L ++ ["scripts"; ".gitkeep"]) <> None
  /\ forall l, apart L l -> node_at w' l = node_at w l.
Proof.
  intros H L. pose proof (create_files_spec title _ _ _ _ H) as (C & D & M).
  fold L in D, M. unfold create_files in H.
  apply bind_Some in H as (w1 & E1 & H).
  apply bind_Some in H as (w2 & E2 & H).
  apply bind_Some in H as (w3 & E3 & H).
  apply bind_Some in H as (w4 & E4 & H).
  apply bind_Some in H as (w5 & E5 & H).
  apply bind_Some in H as (w6 & E6 & H).
  apply bind_Some in H as (w7 & E7 & H).
  apply bind_Some in H as (w8 & E8 & H).
  apply mkdir_parents_spec in E1 as (C1 & _ & F1). fold L in F1.
  apply (step_write w) in E2 as (C2 & T2 & _); [|exact C1].
  apply (step_mkdir w) in E3 as (C3 & T3 & N3); [|exact C2].
  apply (step_mkdir w) in E4 as (C4 & T4 & N4); [|exact C3].
  apply (step_mkdir w) in E5 as (C5 & T5 & N5); [|exact C4].
  apply (step_write w) in E6 as (C6 & T6 & N6); [|exact C5].
  apply (step_write w) in E7 as (C7 & T7 & N7); [|exact C6].
  apply (step_write w) in E8 as (C8 & T8 & N8); [|exact C7].
  apply (step_touch w) in H as (C9 & T9 & N9); [|exact C8].
  rewrite locate_joinpath in T2, T3, T4, T5, N3, N4, N5.
  rewrite locate_joinpath2 in T6, T7, T8, T9, N6, N7, N8, N9.
  fold L in T2, T3, T4, T5, T6, T7, T8, T9, N3, N4, N5, N6, N7, N8, N9.
  assert (Hne : forall a b : list string, a <> b -> L ++ a <> L ++ b).
  { intros a b Hab E. apply Hab. exact (app_inv_head _ _ _ E). }
  repeat split; try assumption.
  - eapply (touches_only_keeps _ w8 w'); [exact T9 | apply Hne; discriminate|].
    eapply (touches_only_keeps _ w7 w8); [exact T8 | apply Hne; discriminate|].
    eapply (touches_only_keeps _ w6 w7); [exact T7 | apply Hne; discriminate|].
    eapply (touches_only_keeps _ w5 w6); [exact T6 | apply Hne; discriminate|].
    eapply (touches_only_keeps _ w4 w5); [exact T5 | apply Hne; discriminate|].
    eapply (touches_only_keeps _ w3 w4); [exact T4 | apply Hne; discriminate|].
    exact N3.
  - eapply (touches_only_keeps _ w8 w'); [exact T9 | apply Hne; discriminate|].
    eapply (touches_only_keeps _ w7 w8); [exact T8 | apply Hne; discriminate|].
    eapply (touches_only_keeps _ w6 w7); [exact T7 | apply Hne; discriminate|].
    eapply (touches_only_keeps _ w5 w6); [exact T6 | apply Hne; discriminate|].
    eapply (touches_only_keeps _ w4 w5); [exact T5 | apply Hne; discriminate|].
    exact N4.
  - eapply (touches_only_keeps _ w8 w'); [exact T9 | apply Hne; discriminate|].
    eapply (touches_only_keeps _ w7 w8); [exact T8 | apply Hne; discriminate|].
    eapply (touches_only_keeps _ w6 w7); [exact T7 | apply Hne; discriminate|].
    eapply (touches_only_keeps _ w5 w6); [exact T6 | apply Hne; discriminate|].
    exact N5.
  - eapply (touches_only_keeps _ w8 w'); [exact T9 | apply Hne; discriminate|].
    eapply (touches_only_keeps _ w7 w8); [exact T8 | apply Hne; discriminate|].
    eapply (touches_only_keeps _ w6 w7); [exact T7 | apply Hne; discriminate|].
    exact N6.
  - eapply (touches_only_keeps _ w8 w'); [exact T9 | apply Hne; discriminate|].
    eapply (touches_only_keeps _ w7 w8); [exact T8 | apply Hne; discriminate|].
    exact N7.
  - eapply (touches_only_keeps _ w8 w'); [exact T9 | apply Hne; discriminate|].
    exact N8.
  - intros l [Hup Hdown].
    assert (Hl : forall k, l <> L ++ k).
    { intros k ->. apply Hdown. exists k. reflexivity. }
    rewrite (proj2 T9), (proj2 T8), (proj2 T7), (proj2 T6), (proj2 T5),
      (proj2 T4), (proj2 T3), (proj2 T2) by apply Hl.
    apply F1, Hup.
Qed.

Lemma locate_put w l n p : locate (put w l n) p = locate w p.
Proof. reflexivity. Qed.

Lemma parent_loc_app1 (l : list string) a : parent_loc (l ++ [a]) = l.
Proof. apply removelast_last. Qed.

Lemma parent_loc_app2 (l : list string) a b : parent_loc (l ++ [a; b]) = l ++ [a].
Proof.
  replace (l ++ [a; b]) with ((l ++ [a]) ++ [b]) by (rewrite <- app_assoc; reflexivity).
  apply removelast_last.
Qed.

Lemma write_text_fresh w p data :
  node_at w (parent_loc (locate w p)) = Some Dir ->
  node_at w (locate w p) = None ->
  write_text w p data = Some (put w (locate w p) (File data)).
Proof. intros Hp Hn. unfold write_text. rewrite Hp, Hn. reflexivity. Qed.

Lemma mkdir_fresh w p :
  node_at w (parent_loc (locate w p)) = Some Dir ->
  node_at w (locate w p) = None ->
  mkdir w p = Some (put w (locate w p) Dir).
Proof. intros Hp Hn. unfold mkdir. rewrite Hn, Hp. reflexivity. Qed.

Lemma touch_fresh w p :
  node_at w (parent_loc (locate w p)) = Some Dir ->
  node_at w (locate w p) = None ->
  touch w p = Some (put w (locate w p) (File "")).
Proof. intros Hp Hn. unfold touch. rewrite Hp, Hn. reflexivity. Qed.

(** On a free spot below a directory that can be made, every step of
    the run goes through. *)
Lemma create_files_succeeds name skill_dir w :
  (forall l data, l `prefix_of` locate w skill_dir ->
                  node_at w l <> Some (File data)) ->
  (forall k, k <> [] -> node_at w (locate w skill_dir ++ k) = None) ->
  exists w', create_files title name skill_dir w = Some w'.
Proof.
  intros Hway Hfree. set (B := locate w skill_dir) in *.
  destruct (mkdir_from_succeeds B w []) as [w1 E1]; [exact Hway|].
  change (mkdir_parents w skill_dir = Some w1) in E1.
  destruct (mkdir_parents_spec _ _ _ E1) as (C1 & D1 & F1). fold B in D1, F1.
  assert (Lw1 : forall q, locate w1 q = locate w q)
    by (intros q; apply locate_same_cwd, C1).
  assert (Hnone : forall k, k <> [] -> node_at w1 (B ++ k) = None).
  { intros k Hk. rewrite F1; [apply Hfree, Hk|].
    intros Hp. apply prefix_length in Hp. rewrite length_app in Hp.
    destruct k; [congruence | simpl in Hp; lia]. }
  assert (Hne : forall a b : list string, a <> b -> B ++ a <> B ++ b).
  { intros a b Hab E. apply Hab. exact (app_inv_head _ _ _ E). }
  assert (HneB : forall a : list string, a <> [] -> B ++ a <> B)
    by (intros a; apply app_ne_self).
  assert (Hnn : forall a : list string, a <> [] -> B ++ a <> []).
  { intros a Ha E. apply app_eq_nil in E as [_ ->]. congruence. }
  unfold create_files. rewrite E1. cbn [mbind option_bind].
  rewrite write_text_fresh;
    rewrite ?Lw1, ?locate_joinpath, ?parent_loc_app1; fold B;
    [|exact D1|apply Hnone; discriminate].
  cbn [mbind option_bind].
  rewrite mkdir_fresh;
    rewrite ?locate_put, ?Lw1, ?locate_joinpath, ?parent_loc_app1; fold B;
    [|rewrite node_at_put_ne by (apply HneB; discriminate); exact D1
     |rewrite node_at_put_ne by (apply Hne; discriminate); apply Hnone; discriminate].
  cbn [mbind option_bind].
  rewrite mkdir_fresh;
    rewrite ?locate_put, ?Lw1, ?locate_joinpath, ?parent_loc_app1; fold B;
    [|rewrite !node_at_put_ne by (apply HneB; discriminate); exact D1
     |rewrite !node_at_put_ne by (apply Hne; discriminate); apply Hnone; discriminate].
  cbn [mbind option_bind].
  rewrite mkdir_fresh;
    rewrite ?locate_put, ?Lw1, ?locate_joinpath, ?parent_loc_app1; fold B;
    [|rewrite !node_at_put_ne by (apply HneB; discriminate); exact D1
     |rewrite !node_at_put_ne by (apply Hne; discriminate); apply Hnone; discriminate].
  cbn [mbind option_bind].
  rewrite write_text_fresh;
    rewrite ?locate_put, ?Lw1, ?locate_joinpath2, ?parent_loc_app2; fold B;
    [|rewrite !node_at_put_ne by (apply Hne; discriminate);
      apply node_at_put_eq, Hnn; discriminate
     |rewrite !node_at_put_ne by (apply Hne; discriminate); apply Hnone; discriminate].
  cbn [mbind option_bind].
  rewrite write_text_fresh;
    rewrite ?locate_put, ?Lw1, ?locate_joinpath2, ?parent_loc_app2; fold B;
    [|rewrite !node_at_put_ne by (apply Hne; discriminate);
      apply node_at_put_eq, Hnn; discriminate
     |rewrite !node_at_put_ne by (apply Hne; discriminate); apply Hnone; discriminate].
  cbn [mbind option_bind].
  rewrite write_text_fresh;
    rewrite ?locate_put, ?Lw1, ?locate_joinpath2, ?parent_loc_app2; fold B;
    [|rewrite !node_at_put_ne by (apply Hne; discriminate);
      apply node_at_put_eq, Hnn; discriminate
     |rewrite !node_at_put_ne by (apply Hne; discriminate); apply Hnone; discriminate].
  cbn [mbind option_bind].
  rewrite touch_fresh;
    rewrite ?locate_put, ?Lw1, ?locate_joinpath2, ?parent_loc_app2; fold B;
    [|rewrite !node_at_put_ne by (apply Hne; discriminate);
      apply node_at_put_eq, Hnn; discriminate
     |rewrite !node_at_put_ne by (apply Hne; discriminate); apply Hnone; discriminate].
  eexists. reflexivity.
Qed.

End InitMore.

(** ** Further properties of the initializer *)

Section InitProperties.
Import FS Spec Shape InitSkill Reference.

Lemma prefix_of_snoc (P l : list string) x :
  l `prefix_of` (P ++ [x]) -> l = P ++ [x] \/ l = take (length l) P.
Proof.
  intros Hl. pose proof (prefix_is_take _ _ Hl) as E.
  destruct (decide (length l <= length P)) as [Hle|Hgt].
  - right. rewrite take_app_le in E by exact Hle. exact E.
  - left. rewrite take_ge in E; [exact E|]. rewrite length_app. simpl. lia.
Qed.

Lemma stat_after (w w' : world) p :
  cwd w' = cwd w -> stat w' p = node_at w' (locate w p).
Proof. intros C. unfold stat. rewrite (locate_same_cwd _ _ _ C). reflexivity. Qed.

Lemma main_created_inv (title : string -> string) name path w w' :
  main title name path w = Created w' ->
  name_accepted name = true
  /\ exists_ w (joinpath path name) = false
  /\ create_files title name (joinpath path name) w = Some w'.
Proof.
  unfold main, create_skill_structure.
  destruct (name_accepted name); [|discriminate]. simpl.
  destruct (exists_ w _); [discriminate|].
  destruct (create_files _ _ _ _) as [w1|]; [|discriminate].
  intros [= <-]. repeat split.
Qed.

(** X1: on names of ASCII characters the initializer accepts exactly
    the names that match [^[A-Za-z0-9_-]+$] and hold at least one
    letter or digit. *)
Theorem ascii_names_follow_regex name :
  PyStr.all_chars is_ascii name = true ->
  (name_accepted name = true
   <-> matches_name_regex name = true /\ PyStr.any_char PyStr.isalnum name = true).
Proof.
  intros Ha. rewrite (ascii_name_accepted name Ha). apply andb_true_iff.
Qed.

Lemma ascii_names_follow_regex_witness :
  PyStr.all_chars is_ascii "my-skill_2" = true
  /\ (name_accepted "my-skill_2" = true
      <-> matches_name_regex "my-skill_2" = true
          /\ PyStr.any_char PyStr.isalnum "my-skill_2" = true).
Proof.
  split; [reflexivity|]. apply ascii_names_follow_regex. reflexivity.
Defined.

(** X2: an accepted name is one plain path component: it is not empty
    and has no slash, no dot and no space, so the directory made is a
    direct child of the destination. *)
Theorem accepted_name_single_component name :
  name_accepted name = true ->
  name <> ""
  /\ PyStr.contains "/" name = false
  /\ PyStr.contains "." name = false
  /\ PyStr.contains " " name = false.
Proof.
  intros H. rewrite name_accepted_char_form in H.
  apply andb_true_iff in H as [Hc Ha]. split.
  - intros ->. discriminate.
  - repeat split; apply permitted_name_lacks; (reflexivity || exact Hc).
Qed.

Lemma accepted_name_single_component_witness :
  name_accepted "code-quality-reviewer" = true
  /\ "code-quality-reviewer" <> ""
  /\ PyStr.contains "/" "code-quality-reviewer" = false
  /\ PyStr.contains "." "code-quality-reviewer" = false
  /\ PyStr.contains " " "code-quality-reviewer" = false.
Proof.
  split; [reflexivity|]. apply accepted_name_single_component. reflexivity.
Defined.

(** X3: the initializer does not overwrite: after a run that created
    the skill, the same command leaves with status 1. *)
Theorem init_twice_exits (title : string -> string) name path w w' :
  main title name path w = Created w' ->
  main title name path w' = Exit 1.
Proof.
  intros H. destruct (main_created_inv _ _ _ _ _ H) as (Ha & _ & _).
  unfold main in *. rewrite Ha in *. simpl in *.
  apply created_world in H as [Hd _].
  unfold create_skill_structure. rewrite (is_dir_exists _ _ Hd). reflexivity.
Qed.

Lemma init_twice_exits_witness :
  main title_ascii "demo" (rel ["skills"]) w0 = Created w_demo
  /\ main title_ascii "demo" (rel ["skills"]) w_demo = Exit 1.
Proof.
  assert (H : main title_ascii "demo" (rel ["skills"]) w0 = Created w_demo)
    by (vm_compute; reflexivity).
  split; [exact H|]. exact (init_twice_exits _ _ _ _ _ H).
Defined.

(** X4: what a successful run leaves behind: the skill directory with
    the formatted template as [SKILL.md], the three resource
    directories, one example file in each with the text of the
    constants, and the marker file in [scripts]. *)
Theorem created_layout (title : string -> string) name path w w' :
  main title name path w = Created w' ->
  let skill_dir := joinpath path name in
  is_dir w' skill_dir = true
  /\ read_text w' (joinpath skill_dir "SKILL.md")
     = Some (SKILL_TEMPLATE name (title (PyStr.replace_char "-" " " name)))
  /\ is_dir w' (joinpath skill_dir "scripts") = true
  /\ is_dir w' (joinpath skill_dir "references") = true
  /\ is_dir w' (joinpath skill_dir "assets") = true
  /\ read_text w' (joinpath (joinpath skill_dir "scripts") "example.py")
     = Some EXAMPLE_SCRIPT
  /\ read_text w' (joinpath (joinpath skill_dir "references") "example.md")
     = Some EXAMPLE_REFERENCE
  /\ read_text w' (joinpath (joinpath skill_dir "assets") "example-template.md")
     = Some EXAMPLE_ASSET
  /\ exists_ w' (joinpath (joinpath skill_dir "scripts") ".gitkeep") = true.
Proof.
  intros H skill_dir.
  destruct (main_created_inv _ _ _ _ _ H) as (_ & _ & Hc).
  fold skill_dir in Hc.
  destruct (create_files_effect title _ _ _ _ Hc)
    as (C & D & M & D1 & D2 & D3 & F1 & F2 & F3 & G & _).
  clearbody skill_dir.
  unfold is_dir, read_text, exists_.
  rewrite !(stat_after w w') by exact C.
  rewrite !locate_joinpath2, !locate_joinpath.
  rewrite D, M, D1, D2, D3, F1, F2, F3.
  repeat split.
  destruct (node_at w' (locate w skill_dir ++ ["scripts"; ".gitkeep"]));
    [reflexivity | congruence].
Qed.

Lemma created_layout_witness :
  main title_ascii "demo" (rel ["skills"]) w0 = Created w_demo
  /\ is_dir w_demo (rel ["skills"; "demo"; "assets"]) = true
  /\ read_text w_demo (rel ["skills"; "demo"; "assets"; "example-template.md"])
     = Some EXAMPLE_ASSET
  /\ exists_ w_demo (rel ["skills"; "demo"; "scripts"; ".gitkeep"]) = true.
Proof.
  assert (H : main title_ascii "demo" (rel ["skills"]) w0 = Created w_demo)
    by (vm_compute; reflexivity).
  split; [exact H|].
  destruct (created_layout _ _ _ _ _ H) as (_ & _ & _ & _ & D3 & _ & _ & F3 & G).
  repeat split; assumption.
Defined.



(** X6: the run succeeds whenever the name is accepted, no file stands
    on the way to the destination, and nothing is at or below the spot
    of the new directory. *)
Theorem init_succeeds_on_free_spot (title : string -> string) name path w :
  name_accepted name = true ->
  (forall k data, node_at w (take k (locate w path)) <> Some (File data)) ->
  (forall k, node_at w (locate w (joinpath path name) ++ k) = None) ->
  exists w', main title name path w = Created w'.
Proof.
  intros Ha Hway Hfree.
  destruct (create_files_succeeds title name (joinpath path name) w) as [w' E].
  - intros l data Hl. rewrite locate_joinpath in Hl.
    destruct (prefix_of_snoc _ _ _ Hl) as [->| ->].
    + rewrite <- locate_joinpath, <- (app_nil_r (locate w _)), Hfree. discriminate.
    + apply Hway.
  - intros k _. apply Hfree.
  - exists w'. unfold main, create_skill_structure. rewrite Ha. simpl.
    unfold exists_, stat.
    rewrite <- (app_nil_r (locate w _)), Hfree, E. reflexivity.
Qed.

Lemma init_succeeds_on_free_spot_witness :
  name_accepted "demo" = true
  /\ exists w', main title_ascii "demo" (rel ["skills"]) w0 = Created w'.
Proof.
  split; [reflexivity|].
  apply init_succeeds_on_free_spot.
  - reflexivity.
  - intros k data. destruct k as [|[|[|k]]]; vm_compute; discriminate.
  - intros k. apply lookup_singleton_ne. discriminate.
Defined.

End InitProperties.

(** ** The validator, check by check, in full *)

Section ValidatorMore.
Import Yaml FS PackageSkill Spec Shape.

Variable safe_load : string -> loaded.
Variable w : world.

Lemma fold_warnings_exact xs : forall v,
  let v' := fold_left (fun v x => add_warning x v) xs v in
  skill_path v' = skill_path v /\ skill_name v' = skill_name v
  /\ errors v' = errors v /\ warnings v' = warnings v ++ xs.
Proof.
  induction xs as [|x xs IH]; intros v; simpl.
  - rewrite app_nil_r. repeat split.
  - destruct (IH (add_warning x v)) as (P & N & E & W).
    repeat split; try assumption. rewrite W. simpl. rewrite <- app_assoc. reflexivity.
Qed.

Lemma example_warnings_app base a b :
  example_warnings base (a ++ b) = example_warnings base a ++ example_warnings base b.
Proof. unfold example_warnings. rewrite List.filter_app, List.map_app. reflexivity. Qed.

Lemma visit_resource_dir_exact has v dir_name :
  let r := visit_resource_dir w (has, v) dir_name in
  fst r = match real_files w (skill_path v) dir_name with [] => has | _ => true end
  /\ skill_path (snd r) = skill_path v /\ skill_name (snd r) = skill_name v
  /\ errors (snd r) = errors v
  /\ warnings (snd r)
     = warnings v
       ++ example_warnings (skill_path v) (real_files w (skill_path v) dir_name).
Proof.
  unfold visit_resource_dir, real_files.
  destruct (_ && _); [|simpl; rewrite app_nil_r; repeat split].
  destruct (resource_files w _) as [|f fs]; [simpl; rewrite app_nil_r; repeat split|].
  cbn [fst snd]. split; [reflexivity|]. apply fold_warnings_exact.
Qed.

(** The resources check: one warning per example file among the files
    that count, and one more when there is no such file at all. *)
Lemma resources_exact v :
  exists v',
    _validate_resources w v = (v', None)
    /\ skill_path v' = skill_path v /\ skill_name v' = skill_name v
    /\ errors v' = errors v
    /\ warnings v'
       = warnings v
         ++ example_warnings (skill_path v) (all_real_files w (skill_path v))
         ++ match all_real_files w (skill_path v) with
            | [] => [WNoResources]
            | _ => []
            end.
Proof.
  unfold _validate_resources, all_real_files. cbn [fold_left].
  pose proof (visit_resource_dir_exact false v "scripts") as X1.
  destruct (visit_resource_dir w (false, v) "scripts") as [h1 v1].
  pose proof (visit_resource_dir_exact h1 v1 "references") as X2.
  destruct (visit_resource_dir w (h1, v1) "references") as [h2 v2].
  pose proof (visit_resource_dir_exact h2 v2 "assets") as X3.
  destruct (visit_resource_dir w (h2, v2) "assets") as [h3 v3].
  cbn [fst snd] in *.
  destruct X1 as (H1 & P1 & N1 & E1 & W1), X2 as (H2 & P2 & N2 & E2 & W2),
           X3 as (H3 & P3 & N3 & E3 & W3).
  rewrite P2, P1 in H3, W3. rewrite P1 in H2, W2.
  unfold when. eexists. split; [reflexivity|].
  rewrite !example_warnings_app.
  set (a := real_files w (skill_path v) "scripts") in *.
  set (b := real_files w (skill_path v) "references") in *.
  set (c := real_files w (skill_path v) "assets") in *.
  assert (Hh : h3 = match a ++ b ++ c with [] => false | _ => true end).
  { rewrite H3, H2, H1. destruct a, b, c; reflexivity. }
  rewrite Hh.
  destruct (a ++ b ++ c) eqn:Eabc; simpl;
    (repeat split; [congruence | congruence | congruence |]);
    rewrite W3, W2, W1, <- ?app_assoc; rewrite ?app_nil_r; reflexivity.
Qed.

Lemma body_exact v content p0 p1 p2 rest :
  read_text w (joinpath (skill_path v) "SKILL.md") = Some content ->
  PyStr.split "---" 2 content = p0 :: p1 :: p2 :: rest ->
  exists v',
    _validate_skill_body w v = (v', None)
    /\ skill_path v' = skill_path v /\ skill_name v' = skill_name v
    /\ errors v' = errors v
         ++ (if PyStr.is_empty (PyStr.strip p2) then [EBodyEmpty] else [])
    /\ warnings v' = warnings v ++ body_warnings (PyStr.strip p2).
Proof.
  intros Hr Hp. unfold _validate_skill_body, body_warnings. rewrite Hr, Hp.
  destruct (PyStr.is_empty (PyStr.strip p2)).
  - eexists. split; [reflexivity|]. simpl. rewrite app_nil_r. repeat split.
  - unfold seq, when. eexists. split; [reflexivity|].
    destruct (PyStr.contains "TODO" _), (_ <? 100)%nat, (25000 <? _)%Z;
      simpl; rewrite ?app_nil_r, <- ?app_assoc; repeat split.
Qed.

Lemma check_fields_str_exact d nm s v :
  exists v',
    check_fields d nm (YStr s) v = (v', None)
    /\ skill_path v' = skill_path v /\ skill_name v' = skill_name v
    /\ errors v' = errors v
         ++ (if (String.length (PyStr.strip s) <? 20)%nat then [EDescTooShort] else [])
         ++ (if PyStr.contains "TODO" s then [EDescTodo] else [])
    /\ warnings v' = warnings v
         ++ (if is_str (skill_name v) nm then []
             else [WNameMismatch nm (skill_name v)])
         ++ match extra_keys d with [] => [] | ks => [WExtraFields ks] end.
Proof.
  unfold check_fields, extra_keys. rewrite too_short_str. simpl contains_str. cbv iota.
  destruct (is_str (skill_name v) nm),
           (String.length (PyStr.strip s) <? 20)%nat,
           (PyStr.contains "TODO" s),
           (List.filter _ _);
    eexists; (split; [reflexivity|]); simpl;
    rewrite ?app_nil_r, <- ?app_assoc; repeat split.
Qed.

(** The whole report for a document with a name and a string
    description: every check has run, and the two lists are what the
    checks appended, in their order. *)
Lemma full_report p d p2 nm s :
  parsed_document safe_load w p d p2 ->
  get "name" d = Some nm ->
  get "description" d = Some (YStr s) ->
  let errs :=
    (if (String.length (PyStr.strip s) <? 20)%nat then [EDescTooShort] else [])
    ++ (if PyStr.contains "TODO" s then [EDescTodo] else [])
    ++ (if PyStr.is_empty (PyStr.strip p2) then [EBodyEmpty] else [])
    ++ (if PyStr.contains " " (name p) then [ENameSpaces (name p)] else []) in
  let warns :=
    (if is_str (name p) nm then [] else [WNameMismatch nm (name p)])
    ++ match extra_keys d with [] => [] | ks => [WExtraFields ks] end
    ++ body_warnings (PyStr.strip p2)
    ++ example_warnings p (all_real_files w p)
    ++ match all_real_files w p with [] => [WNoResources] | _ => [] end
    ++ (if PyStr.str_islower (name p) then [] else [WNotLower (name p)])
    ++ (if PyStr.contains "_" (name p) then [WUnderscores (name p)] else []) in
  validate safe_load w p
  = Returned (match errs with [] => true | _ => false end) errs warns.
Proof.
  intros (Hd & content & p0 & p1 & rest & Hr & Hs & Hp & Hl) Hn Hds errs warns.
  unfold validate, validate_from.
  rewrite (pass_reaches_fields safe_load w p content p0 p1 p2 rest d nm (YStr s)
             Hd Hr Hs Hp Hl Hn Hds).
  destruct (check_fields_str_exact d nm s (new_validator p))
    as (v1 & Hf & P1 & N1 & E1 & W1).
  unfold seq at 1. rewrite Hf.
  destruct (body_exact v1 content p0 p1 p2 rest) as (v2 & Hb & P2 & N2 & E2 & W2);
    [rewrite P1; exact Hr | exact Hp |].
  unfold seq at 1. rewrite Hb.
  destruct (resources_exact v2) as (v3 & Hres & P3 & N3 & E3 & W3).
  unfold seq. rewrite Hres.
  destruct (naming_outcome v3) as (v4 & Hnam & P4 & N4 & E4 & W4).
  rewrite Hnam. unfold report.
  simpl in P1, N1, E1, W1.
  assert (Ee : errors v4 = errs).
  { rewrite E4, E3, E2, E1, N3, N2, N1. unfold errs.
    rewrite <- !app_assoc. reflexivity. }
  assert (Ew : warnings v4 = warns).
  { rewrite W4, W3, W2, W1, N3, N2, N1, P2, P1. unfold warns.
    rewrite <- !app_assoc. reflexivity. }
  rewrite Ee, Ew. reflexivity.
Qed.

End ValidatorMore.

(** ** Further properties of the validator *)

Section ListFacts.
Import PackageSkill.

Lemma in_if_single {A} (b : bool) (y x : A) :
  In x (if b then [y] else []) <-> b = true /\ x = y.
Proof.
  destruct b; simpl; split.
  - intros [->|[]]. split; reflexivity.
  - intros [_ ->]. left. reflexivity.
  - intros [].
  - intros [? _]. discriminate.
Qed.

Lemma in_unless_single {A} (b : bool) (y x : A) :
  In x (if b then [] else [y]) <-> b = false /\ x = y.
Proof.
  destruct b; simpl; split.
  - intros [].
  - intros [? _]. discriminate.
  - intros [->|[]]. split; reflexivity.
  - intros [_ ->]. left. reflexivity.
Qed.

Lemma filter_none {A} (f : A -> bool) l :
  (forall x, In x l -> f x = false) -> List.filter f l = [].
Proof.
  induction l as [|a l IH]; intros H; [reflexivity|]. simpl.
  rewrite (H a) by (left; reflexivity). apply IH. intros x Hx. apply H. right. exact Hx.
Qed.

Lemma has_upper_not_lower b s :
  PyStr.any_char PyStr.isupper s = true -> PyStr.islower_from b s = false.
Proof.
  revert b. induction s as [|c s IH]; intros b; simpl; [discriminate|].
  destruct (PyStr.isupper c); [reflexivity|]. simpl. apply IH.
Qed.

End ListFacts.

Section ValidatorProperties.
Import Yaml FS PackageSkill Spec Shape Reference Reference2.

Lemma ready_parsed :
  parsed_document yaml_lines w_ready (rel ["skills"; "demo"])
    [(YStr "name", YStr "demo");
     (YStr "description",
      YStr "Formats and checks the release notes of a project.")]
    (newline +:+ newline +:+ "Run it before every release." +:+ newline).
Proof.
  split; [reflexivity|].
  exists finished_md, "",
    (newline +:+ "name: demo" +:+ newline
       +:+ "description: Formats and checks the release notes of a project."
       +:+ newline), [].
  repeat split; vm_compute; reflexivity.
Qed.

Lemma clean_parsed :
  parsed_document yaml_lines w_clean (rel ["skills"; "demo"])
    [(YStr "name", YStr "demo");
     (YStr "description",
      YStr "Formats and checks the release notes of a project.")]
    (newline +:+ newline +:+ "Run it before every release." +:+ newline).
Proof.
  split; [reflexivity|].
  exists finished_md, "",
    (newline +:+ "name: demo" +:+ newline
       +:+ "description: Formats and checks the release notes of a project."
       +:+ newline), [].
  repeat split; vm_compute; reflexivity.
Qed.

(** X7: a structural error stands alone: when a report holds one, it
    holds nothing else, no other error and no warning, and the
    validation failed. *)
Theorem structural_error_stands_alone safe_load w p ok errs warns e :
  validate safe_load w p = Returned ok errs warns ->
  In e errs ->
  structural e = true ->
  ok = false /\ errs = [e] /\ warns = [].
Proof.
  intros Hv Hin Hs.
  destruct (report_shapes safe_load w p ok errs warns Hv)
    as [(e' & _ & -> & -> & ->)|(le & lw & C & -> & _)].
  - destruct Hin as [->|[]]. repeat split.
  - exfalso. apply in_app_or in Hin as [Hin|Hin].
    + rewrite forallb_forall in C. specialize (C e Hin).
      destruct e; discriminate.
    + destruct (PyStr.contains " " (name p)); [|destruct Hin].
      destruct Hin as [<-|[]]. discriminate.
Qed.

Lemma structural_error_stands_alone_witness :
  validate yaml_lines (skill_world "my skill" nameless_md) (rel ["my skill"])
  = Returned false [ENoName] []
  /\ In ENoName [ENoName]
  /\ false = false /\ [ENoName] = [ENoName] /\ @nil vwarning = [].
Proof.
  assert (H : validate yaml_lines (skill_world "my skill" nameless_md)
                (rel ["my skill"]) = Returned false [ENoName] [])
    by (vm_compute; reflexivity).
  split; [exact H|]. split; [left; reflexivity|].
  apply (structural_error_stands_alone yaml_lines _ _ _ _ _ ENoName H);
    [left; reflexivity | reflexivity].
Defined.

(** X8: when the skill path is no directory the report is one error and
    nothing else: the path does not exist, or it is not a directory. *)
Theorem directory_check_report safe_load w p :
  is_dir w p = false ->
  validate safe_load w p
  = Returned false [if exists_ w p then ENotDir p else EDirMissing p] [].
Proof.
  intros H. unfold validate, validate_from, run_checks, seq,
    _validate_directory_exists. simpl skill_path.
  destruct (exists_ w p); simpl; [rewrite H|]; reflexivity.
Qed.

Lemma directory_check_report_witness :
  is_dir (skill_world "demo" finished_md) (rel ["demo"; "SKILL.md"]) = false
  /\ validate yaml_lines (skill_world "demo" finished_md) (rel ["demo"; "SKILL.md"])
     = Returned false [ENotDir (rel ["demo"; "SKILL.md"])] []
  /\ validate yaml_lines (skill_world "demo" finished_md) (rel ["nowhere"])
     = Returned false [EDirMissing (rel ["nowhere"])] [].
Proof.
  split; [reflexivity|]. split.
  - apply (directory_check_report yaml_lines (skill_world "demo" finished_md)
             (rel ["demo"; "SKILL.md"])). reflexivity.
  - apply (directory_check_report yaml_lines (skill_world "demo" finished_md)
             (rel ["nowhere"])). reflexivity.
Defined.

(** X9: when [SKILL.md] is itself a directory the existence check lets
    it through and reading it raises: [validate] ends with an uncaught
    [OSError] instead of a report. *)
Theorem skill_md_directory_raises safe_load w p :
  is_dir w p = true ->
  is_dir w (joinpath p "SKILL.md") = true ->
  validate safe_load w p = Propagated OSError.
Proof.
  intros Hd Hm. unfold validate, validate_from, run_checks, seq.
  rewrite directory_check_passes by exact Hd.
  rewrite skill_md_check_passes by (apply is_dir_exists, Hm).
  unfold _validate_yaml_frontmatter, read_text. simpl skill_path.
  unfold is_dir in Hm. destruct (stat w (joinpath p "SKILL.md")) as [[|]|];
    try discriminate. reflexivity.
Qed.

Lemma skill_md_directory_raises_witness :
  is_dir (put (bare_world "demo") ["work"; "demo"; "SKILL.md"] Dir) (rel ["demo"]) = true
  /\ validate yaml_lines (put (bare_world "demo") ["work"; "demo"; "SKILL.md"] Dir)
       (rel ["demo"]) = Propagated OSError.
Proof.
  split; [reflexivity|]. apply skill_md_directory_raises; reflexivity.
Defined.

(** X10: a document that does not start with the marker, the empty
    document included, is reported with that single error. *)
Theorem missing_opening_marker safe_load w p content :
  is_dir w p = true ->
  read_text w (joinpath p "SKILL.md") = Some content ->
  PyStr.startswith content "---" = false ->
  validate safe_load w p = Returned false [ENoFrontmatter] [].
Proof.
  intros Hd Hr Hs. unfold validate, validate_from, run_checks, seq.
  rewrite directory_check_passes by exact Hd.
  rewrite skill_md_check_passes by (exact (read_text_exists _ _ _ Hr)).
  unfold _validate_yaml_frontmatter. simpl skill_path. rewrite Hr, Hs. reflexivity.
Qed.

Lemma missing_opening_marker_witness :
  PyStr.startswith "" "---" = false
  /\ validate yaml_lines (skill_world "demo" "") (rel ["demo"])
     = Returned false [ENoFrontmatter] [].
Proof.
  split; [reflexivity|].
  apply (missing_opening_marker yaml_lines (skill_world "demo" "") (rel ["demo"]) "");
    reflexivity.
Defined.

(** X11: a document with the opening marker and no marker after it is
    reported with the missing-closing-marker error alone. *)
Theorem missing_closing_marker safe_load w p content rest :
  is_dir w p = true ->
  read_text w (joinpath p "SKILL.md") = Some content ->
  PyStr.drop_prefix "---" content = Some rest ->
  PyStr.contains "---" rest = false ->
  validate safe_load w p = Returned false [ENoClosing] [].
Proof.
  intros Hd Hr Hdp Hc. unfold validate, validate_from, run_checks, seq.
  rewrite directory_check_passes by exact Hd.
  rewrite skill_md_check_passes by (exact (read_text_exists _ _ _ Hr)).
  unfold _validate_yaml_frontmatter. simpl skill_path. rewrite Hr.
  unfold PyStr.startswith. rewrite Hdp. simpl negb. cbv iota.
  assert (Hsp : PyStr.split "---" 2 content = [""; rest]).
  { cbn [PyStr.split].
    assert (P : PyStr.partition "---" content = Some ("", rest)).
    { destruct content; cbn [PyStr.partition]; rewrite Hdp; reflexivity. }
    rewrite P. unfold PyStr.contains in Hc.
    destruct (PyStr.partition "---" rest); [discriminate | reflexivity]. }
  rewrite Hsp. reflexivity.
Qed.

Lemma missing_closing_marker_witness :
  PyStr.contains "---" (newline +:+ "name: demo" +:+ newline) = false
  /\ validate yaml_lines
       (skill_world "demo" ("---" +:+ newline +:+ "name: demo" +:+ newline))
       (rel ["demo"])
     = Returned false [ENoClosing] [].
Proof.
  split; [reflexivity|].
  apply (missing_closing_marker yaml_lines
           (skill_world "demo" ("---" +:+ newline +:+ "name: demo" +:+ newline))
           (rel ["demo"]) ("---" +:+ newline +:+ "name: demo" +:+ newline)
           (newline +:+ "name: demo" +:+ newline));
    reflexivity.
Defined.



End ValidatorProperties.

(** ** What a complete pass reports *)

Section ReportProperties.
Import Yaml FS PackageSkill Spec Shape Reference Reference2.

Lemma in_extra_warning ks x :
  In x (match ks with [] => [] | k :: ks' => [WExtraFields (k :: ks')] end)
  <-> ks <> [] /\ x = WExtraFields ks.
Proof.
  destruct ks as [|k ks]; simpl; split.
  - intros [].
  - intros [H _]. congruence.
  - intros [<-|[]]. split; [discriminate | reflexivity].
  - intros [_ ->]. left. reflexivity.
Qed.

Lemma in_no_resources (l : list Path) x :
  In x (match l with [] => [WNoResources] | _ => [] end)
  <-> l = [] /\ x = WNoResources.
Proof.
  destruct l; simpl; split.
  - intros [<-|[]]. split; reflexivity.
  - intros [_ ->]. left. reflexivity.
  - intros [].
  - intros [? _]. discriminate.
Qed.

Lemma in_body_warnings body x :
  In x (body_warnings body)
  <-> PyStr.is_empty body = false
      /\ ((PyStr.contains "TODO" body = true /\ x = WBodyTodo)
          \/ ((String.length body <? 100)%nat = true /\ x = WBodyShort)
          \/ ((25000 <? Z.of_nat (String.length body))%Z = true /\ x = WBodyLong)).
Proof.
  unfold body_warnings. destruct (PyStr.is_empty body).
  - simpl. split; [intros [] | intros [? _]; discriminate].
  - rewrite !in_app_iff, !in_if_single. tauto.
Qed.

Lemma in_example_warnings base fs x :
  In x (example_warnings base fs)
  <-> exists f, In f fs
        /\ PyStr.contains "example" (PyStr.lower (name f)) = true
        /\ x = WExampleFile (relative_to f base).
Proof.
  unfold example_warnings. rewrite in_map_iff. split.
  - intros (f & <- & Hf). apply filter_In in Hf as [Hin Hc].
    exists f. repeat split; assumption.
  - intros (f & Hin & Hc & ->). exists f. split; [reflexivity|].
    apply filter_In. split; assumption.
Qed.

(** X13: for a document with a name and a string description,
    validation passes exactly when the trimmed description has at least
    20 characters and no TODO, the trimmed body is not empty and the
    directory name has no space; nothing else makes it fail. *)
Theorem validation_passes_exactly safe_load w p d p2 nm s :
  parsed_document safe_load w p d p2 ->
  get "name" d = Some nm ->
  get "description" d = Some (YStr s) ->
  exists ok errs warns,
    validate safe_load w p = Returned ok errs warns
    /\ (ok = true
        <-> 20 <= String.length (PyStr.strip s)
            /\ PyStr.contains "TODO" s = false
            /\ PyStr.is_empty (PyStr.strip p2) = false
            /\ PyStr.contains " " (name p) = false).
Proof.
  intros Hdoc Hn Hds.
  pose proof (full_report safe_load w p d p2 nm s Hdoc Hn Hds) as V.
  cbv zeta in V. rewrite V. do 3 eexists. split; [reflexivity|].
  destruct (Nat.ltb_spec (String.length (PyStr.strip s)) 20) as [Hlt|Hge];
    destruct (PyStr.contains "TODO" s);
    destruct (PyStr.is_empty (PyStr.strip p2));
    destruct (PyStr.contains " " (name p)); simpl;
    (split; [intros H; try discriminate H; repeat split; (reflexivity || lia)
            | intros (H1 & H2 & H3 & H4); try discriminate; try lia; reflexivity]).
Qed.

Lemma validation_passes_exactly_witness :
  exists ok errs warns,
    validate yaml_lines w_ready (rel ["skills"; "demo"]) = Returned ok errs warns
    /\ (ok = true
        <-> 20 <= String.length
                    (PyStr.strip "Formats and checks the release notes of a project.")
            /\ PyStr.contains "TODO"
                 "Formats and checks the release notes of a project." = false
            /\ PyStr.is_empty
                 (PyStr.strip (newline +:+ newline +:+ "Run it before every release."
                                 +:+ newline)) = false
            /\ PyStr.contains " " (name (rel ["skills"; "demo"])) = false).
Proof.
  apply (validation_passes_exactly yaml_lines w_ready (rel ["skills"; "demo"])
           _ _ (YStr "demo") _ ready_parsed); reflexivity.
Defined.

(** X14: for such a document, the warnings of the report are exactly
    these: a name field that is not the directory name, header keys
    besides the two allowed, a body with TODO, a body under 100 or over
    25000 characters, each counted resource file whose lowercased name
    holds "example", no counted resource file at all, a directory name
    that is not lowercase, and an underscore in it. *)
Theorem warnings_exactly safe_load w p d p2 nm s :
  parsed_document safe_load w p d p2 ->
  get "name" d = Some nm ->
  get "description" d = Some (YStr s) ->
  exists ok errs warns,
    validate safe_load w p = Returned ok errs warns
    /\ forall x,
         In x warns
         <-> (is_str (name p) nm = false /\ x = WNameMismatch nm (name p))
             \/ (extra_keys d <> [] /\ x = WExtraFields (extra_keys d))
             \/ (PyStr.is_empty (PyStr.strip p2) = false
                 /\ ((PyStr.contains "TODO" (PyStr.strip p2) = true /\ x = WBodyTodo)
                     \/ ((String.length (PyStr.strip p2) <? 100)%nat = true
                         /\ x = WBodyShort)
                     \/ ((25000 <? Z.of_nat (String.length (PyStr.strip p2)))%Z = true
                         /\ x = WBodyLong)))
             \/ (exists f, In f (all_real_files w p)
                   /\ PyStr.contains "example" (PyStr.lower (name f)) = true
                   /\ x = WExampleFile (relative_to f p))
             \/ (all_real_files w p = [] /\ x = WNoResources)
             \/ (PyStr.str_islower (name p) = false /\ x = WNotLower (name p))
             \/ (PyStr.contains "_" (name p) = true /\ x = WUnderscores (name p)).
Proof.
  intros Hdoc Hn Hds.
  pose proof (full_report safe_load w p d p2 nm s Hdoc Hn Hds) as V.
  cbv zeta in V. rewrite V. do 3 eexists. split; [reflexivity|].
  intros x.
  rewrite !in_app_iff, in_extra_warning, in_body_warnings, in_example_warnings,
    in_no_resources, !in_unless_single, in_if_single.
  tauto.
Qed.

Lemma warnings_exactly_witness :
  exists ok errs warns,
    validate yaml_lines w_ready (rel ["skills"; "demo"]) = Returned ok errs warns
    /\ (In WBodyShort warns /\ ~ In WNoResources warns).
Proof.
  destruct (warnings_exactly yaml_lines w_ready (rel ["skills"; "demo"])
              _ _ (YStr "demo") _ ready_parsed eq_refl eq_refl)
    as (ok & errs & warns & V & H).
  exists ok, errs, warns. split; [exact V|]. split.
  - apply H. right. right. left. split; [reflexivity|].
    right. left. split; reflexivity.
  - intros Hin. apply H in Hin.
    destruct Hin as [[_ E]|[[_ E]|[[_ [[_ E]|[[_ E]|[_ E]]]]|[(f & _ & _ & E)|[[E _]|[[_ E]|[_ E]]]]]]];
      lazymatch type of E with
      | all_real_files _ _ = _ => vm_compute in E; discriminate E
      | _ => discriminate E
      end.
Defined.

(** X15: the marker file does not count as a resource: when every
    regular file below the three resource directories is named
    [.gitkeep], the report carries the no-resources warning. *)
Theorem marker_files_do_not_count safe_load w p d p2 nm s :
  parsed_document safe_load w p d p2 ->
  get "name" d = Some nm ->
  get "description" d = Some (YStr s) ->
  (forall dir f, In dir resource_dirs -> In f (rglob w (joinpath p dir)) ->
                 is_file w f = true -> name f = ".gitkeep") ->
  exists ok errs warns,
    validate safe_load w p = Returned ok errs warns /\ In WNoResources warns.
Proof.
  intros Hdoc Hn Hds Hmark.
  pose proof (full_report safe_load w p d p2 nm s Hdoc Hn Hds) as V.
  cbv zeta in V. rewrite V. do 3 eexists. split; [reflexivity|].
  assert (Hnone : forall dir, In dir resource_dirs -> real_files w p dir = []).
  { intros dir Hdir. unfold real_files. destruct (_ && _); [|reflexivity].
    unfold resource_files. apply filter_none. intros f Hf.
    destruct (is_file w f) eqn:Hfile; [|reflexivity].
    rewrite (Hmark dir f Hdir Hf Hfile). reflexivity. }
  assert (Hall : all_real_files w p = []).
  { unfold all_real_files. rewrite !Hnone; [reflexivity | | |];
      unfold resource_dirs; simpl; tauto. }
  rewrite Hall. rewrite !in_app_iff. simpl. tauto.
Qed.

Lemma marker_files_do_not_count_witness :
  is_file w_clean (rel ["skills"; "demo"; "scripts"; ".gitkeep"]) = true
  /\ exists ok errs warns,
       validate yaml_lines w_clean (rel ["skills"; "demo"]) = Returned ok errs warns
       /\ In WNoResources warns.
Proof.
  split; [vm_compute; reflexivity|].
  apply (marker_files_do_not_count yaml_lines w_clean (rel ["skills"; "demo"])
           _ _ (YStr "demo") "Formats and checks the release notes of a project."
           clean_parsed); [vm_compute; reflexivity | vm_compute; reflexivity |].
  intros dir f Hdir Hf Hfile.
  assert (E : List.forallb
                (fun dir => List.forallb
                   (fun f => implb (is_file w_clean f) (String.eqb (name f) ".gitkeep"))
                   (rglob w_clean (joinpath (rel ["skills"; "demo"]) dir)))
                resource_dirs = true) by (vm_compute; reflexivity).
  rewrite List.forallb_forall in E. specialize (E dir Hdir).
  rewrite List.forallb_forall in E. specialize (E f Hf).
  rewrite Hfile in E. apply String.eqb_eq in E. exact E.
Defined.

(** X16: an uppercase letter or an underscore in the directory name
    costs a warning and no error: with a sound description, a body and
    no space in the name, validation passes, and the report carries the
    lowercase warning for an uppercase letter and the hyphen warning
    for an underscore. *)
Theorem case_and_underscore_only_warn safe_load w p d p2 nm s :
  parsed_document safe_load w p d p2 ->
  get "name" d = Some nm ->
  get "description" d = Some (YStr s) ->
  20 <= String.length (PyStr.strip s) ->
  PyStr.contains "TODO" s = false ->
  PyStr.is_empty (PyStr.strip p2) = false ->
  PyStr.contains " " (name p) = false ->
  exists warns,
    validate safe_load w p = Returned true [] warns
    /\ (PyStr.any_char PyStr.isupper (name p) = true -> In (WNotLower (name p)) warns)
    /\ (PyStr.contains "_" (name p) = true -> In (WUnderscores (name p)) warns).
Proof.
  intros Hdoc Hn Hds Hlen Htodo Hbody Hsp.
  pose proof (full_report safe_load w p d p2 nm s Hdoc Hn Hds) as V.
  cbv zeta in V. rewrite Htodo, Hbody, Hsp in V.
  destruct (Nat.ltb_spec (String.length (PyStr.strip s)) 20) as [Hlt|_]; [lia|].
  simpl in V. rewrite V. eexists. split; [reflexivity|]. split.
  - intros Hup. unfold PyStr.str_islower.
    rewrite (has_upper_not_lower _ _ Hup). rewrite !in_app_iff. simpl. tauto.
  - intros Hu. rewrite Hu. rewrite !in_app_iff. simpl. tauto.
Qed.

Lemma case_and_underscore_only_warn_witness :
  exists warns,
    validate yaml_lines (skill_world "My_Skill" finished_md) (rel ["My_Skill"])
    = Returned true [] warns
    /\ (PyStr.any_char PyStr.isupper (name (rel ["My_Skill"])) = true ->
        In (WNotLower (name (rel ["My_Skill"]))) warns)
    /\ (PyStr.contains "_" (name (rel ["My_Skill"])) = true ->
        In (WUnderscores (name (rel ["My_Skill"]))) warns).
Proof.
  apply (case_and_underscore_only_warn yaml_lines (skill_world "My_Skill" finished_md)
           (rel ["My_Skill"])
           [(YStr "name", YStr "demo");
            (YStr "description",
             YStr "Formats and checks the release notes of a project.")]
           (newline +:+ newline +:+ "Run it before every release." +:+ newline)
           (YStr "demo") "Formats and checks the release notes of a project.");
    try reflexivity; try (vm_compute; lia).
  split; [reflexivity|].
  exists finished_md, "",
    (newline +:+ "name: demo" +:+ newline
       +:+ "description: Formats and checks the release notes of a project."
       +:+ newline), [].
  repeat split; vm_compute; reflexivity.
Defined.

End ReportProperties.

(** ** Further facts about the packager *)

Section PackagerMore.
Import FS Spec Shape PackageSkill.

Variable zip_bytes : list member -> string.
Variable zip_partial : list member -> string.

(** [mkdir -p] keeps every node that is there. *)
Lemma mkdir_from_keeps todo : forall w done w' l n,
  mkdir_from w done todo = Some w' ->
  node_at w l = Some n -> node_at w' l = Some n.
Proof.
  induction todo as [|c rest IH]; intros w done w' l n H Hl.
  - injection H as <-. exact Hl.
  - cbn [mkdir_from] in H.
    destruct (node_at w (done ++ [c])) as [[|]|] eqn:E; [discriminate | |].
    + exact (IH _ _ _ _ _ H Hl).
    + apply (IH _ _ _ _ _ H). rewrite node_at_put_ne; [exact Hl|].
      intros E0. rewrite E0 in E. congruence.
Qed.

(** After [mkdir -p] every directory on the way is there. *)
Lemma mkdir_from_all_dirs todo : forall w done w',
  mkdir_from w done todo = Some w' ->
  node_at w done = Some Dir ->
  forall k, node_at w' (done ++ take k todo) = Some Dir.
Proof.
  induction todo as [|c rest IH]; intros w done w' H Hd k.
  - injection H as <-. rewrite take_nil, app_nil_r. exact Hd.
  - destruct k as [|k].
    + rewrite take_0, app_nil_r. exact (mkdir_from_keeps _ _ _ _ _ _ H Hd).
    + cbn [mkdir_from] in H. simpl take.
      replace (done ++ c :: take k rest) with ((done ++ [c]) ++ take k rest)
        by (rewrite <- app_assoc; reflexivity).
      destruct (node_at w (done ++ [c])) as [[|]|] eqn:E; [discriminate | |].
      * exact (IH _ _ _ H E k).
      * apply (IH _ _ _ H). apply node_at_put_eq. destruct done; discriminate.
Qed.

(** Where they all are already, [mkdir -p] changes nothing. *)
Lemma mkdir_from_noop todo : forall w done,
  (forall k, node_at w (done ++ take (S k) todo) = Some Dir) ->
  mkdir_from w done todo = Some w.
Proof.
  induction todo as [|c rest IH]; intros w done H; [reflexivity|].
  cbn [mkdir_from]. pose proof (H 0) as H0. simpl in H0. rewrite take_0 in H0.
  rewrite H0.
  apply IH. intros k. specialize (H (S k)). simpl in H.
  rewrite <- app_assoc. exact H.
Qed.



Lemma write_text_some w p data w' :
  write_text w p data = Some w' -> w' = put w (locate w p) (File data).
Proof.
  unfold write_text.
  destruct (node_at w (parent_loc _)) as [[|]|]; try discriminate.
  destruct (node_at w (locate w p)) as [[|]|]; try discriminate;
    intros [= <-]; reflexivity.
Qed.

Lemma put_put w l n1 n2 : put (put w l n1) l n2 = put w l n2.
Proof. unfold put. simpl. rewrite insert_insert_eq. reflexivity. Qed.

(** The members of the archive when it lies outside the skill
    directory: the regular files below it, each once. *)
Lemma packaged_archive skill_path output_dir w package_path members w' :
  package zip_bytes zip_partial skill_path output_dir w
  = Packaged package_path members w' ->
  ~ locate w skill_path `prefix_of` locate w package_path ->
  NoDup members.*1
  /\ forall arcname, archive_read members arcname = file_below w skill_path arcname.
Proof.
  intros Hpkg Hout.
  destruct (package_inv zip_bytes zip_partial _ _ _ _ _ _ Hpkg)
    as (w1 & w2 & E1 & Epp & E2 & Em & _).
  destruct (mkdir_parents_spec _ _ _ E1) as (C1 & _ & F1).
  destruct (write_text_spec _ _ _ _ E2) as ([C2 F2] & _).
  assert (C : cwd w2 = cwd w) by congruence.
  assert (Lp : locate w1 package_path = locate w package_path)
    by (apply locate_same_cwd, C1).
  assert (Ls : locate w2 skill_path = locate w skill_path)
    by (apply locate_same_cwd, C).
  assert (Hout2 : ~ locate w2 skill_path `prefix_of` locate w2 package_path).
  { rewrite Ls, (locate_same_cwd _ _ _ C). exact Hout. }
  assert (Hwalk : members
                  = omap (entry_of (locate w skill_path)) (map_to_list (files w2))).
  { rewrite Em. unfold rglob.
    rewrite (walk_members zip_partial w2 skill_path package_path Hout2).
    - rewrite Ls. reflexivity.
    - intros loc n Hin. apply elem_of_map_to_list, list_elem_of_In, Hin. }
  rewrite Hwalk.
  assert (Hnd' : NoDup (omap (entry_of (locate w skill_path))
                          (map_to_list (files w2))).*1)
    by apply members_names_nodup, NoDup_fst_map_to_list.
  split; [exact Hnd'|].
  intros arcname. apply option_eq. intros data. unfold archive_read.
  rewrite <- elem_of_list_to_map by exact Hnd'.
  rewrite members_elem. unfold file_below.
  destruct arcname as [|a arcname'].
  { split; [intros [[] _]; reflexivity | discriminate]. }
  set (l := locate w skill_path ++ a :: arcname').
  assert (Hl : files w2 !! l = files w !! l).
  { assert (Hb : locate w skill_path `prefix_of` l) by (exists (a :: arcname'); reflexivity).
    assert (N2 : node_at w2 l = node_at w l).
    { rewrite F2, F1; [reflexivity | |].
      - intros Hp. apply Hout. etransitivity; [exact Hb|].
        etransitivity; [exact Hp|]. rewrite Epp.
        rewrite locate_joinpath. apply prefix_app_r. reflexivity.
      - rewrite Lp. intros E. apply Hout. rewrite <- E. exact Hb. }
    unfold node_at in N2. subst l.
    destruct (locate w skill_path ++ a :: arcname') eqn:El; [|exact N2].
    destruct (locate w skill_path); discriminate. }
  fold l. rewrite Hl. split.
  - intros [_ ->]. reflexivity.
  - destruct (files w !! l) as [[x|]|]; try discriminate.
    intros [= ->]. split; [discriminate | reflexivity].
Qed.

End PackagerMore.

(** ** Further properties of the packager *)

Section PackagerProperties.
Import FS Spec Shape PackageSkill Reference Reference2.



(** X18: packaging again changes nothing: run on the world a first run
    left, [package] returns the same path and the same members and
    leaves that world as it is. *)
Theorem package_twice (zip_bytes zip_partial : list member -> string)
    skill_path output_dir w package_path members w' :
  package zip_bytes zip_partial skill_path output_dir w
  = Packaged package_path members w' ->
  package zip_bytes zip_partial skill_path output_dir w'
  = Packaged package_path members w'.
Proof.
  intros Hpkg.
  destruct (package_inv zip_bytes zip_partial _ _ _ _ _ _ Hpkg)
    as (w1 & w2 & E1 & Epp & E2 & Em & Ew).
  destruct (mkdir_parents_spec _ _ _ E1) as (C1 & D1 & _).
  pose proof (write_text_some _ _ _ _ E2) as Ew2.
  assert (L1 : locate w1 package_path = locate w package_path)
    by (apply locate_same_cwd, C1).
  set (L := locate w package_path) in *.
  assert (EL : L = locate w output_dir ++ [name skill_path +:+ ".skill"])
    by (unfold L; rewrite Epp; apply locate_joinpath).
  rewrite L1 in Ew2.
  assert (L2 : locate w2 package_path = L) by (rewrite Ew2; exact L1).
  rewrite L2 in Ew.
  assert (Cw' : cwd w' = cwd w) by (rewrite Ew, Ew2; simpl; exact C1).
  assert (Lo : locate w' output_dir = locate w output_dir)
    by (apply locate_same_cwd, Cw').
  assert (Hdirs : forall k, node_at w' (take k (locate w output_dir)) = Some Dir).
  { intros k. rewrite Ew, Ew2.
    assert (Hne : L <> take k (locate w output_dir)).
    { rewrite EL. intros E. apply (f_equal length) in E.
      rewrite length_app, length_take in E. simpl in E. lia. }
    rewrite !node_at_put_ne by exact Hne.
    exact (mkdir_from_all_dirs _ _ _ _ E1 eq_refl k). }
  unfold package.
  assert (M : mkdir_parents w' output_dir = Some w').
  { unfold mkdir_parents. rewrite Lo. apply mkdir_from_noop.
    intros k. apply (Hdirs (S k)). }
  rewrite M. fold (joinpath output_dir (name skill_path +:+ ".skill")).
  rewrite <- Epp.
  assert (W : write_text w' package_path "" = Some w2).
  { unfold write_text.
    rewrite (locate_same_cwd w w' package_path Cw'). fold L.
    rewrite EL at 1. unfold parent_loc. rewrite removelast_last.
    rewrite <- (firstn_all (locate w output_dir)) at 1. rewrite Hdirs.
    assert (Hn : node_at w' L = Some (File (zip_bytes members))).
    { rewrite Ew. apply node_at_put_eq. rewrite EL.
      destruct (locate w output_dir); discriminate. }
    rewrite Hn. rewrite Ew, Ew2, !put_put. reflexivity. }
  rewrite W, <- Em, L2, <- Ew. reflexivity.
Qed.

Lemma package_twice_witness :
  exists members w',
    package listing listing (rel ["skills"; "demo"]) (rel ["dist"]) w_ready
    = Packaged (rel ["dist"; "demo.skill"]) members w'
    /\ package listing listing (rel ["skills"; "demo"]) (rel ["dist"]) w'
       = Packaged (rel ["dist"; "demo.skill"]) members w'.
Proof.
  do 2 eexists.
  assert (H : package listing listing (rel ["skills"; "demo"]) (rel ["dist"]) w_ready
              = Packaged (rel ["dist"; "demo.skill"]) _ _)
    by (vm_compute; reflexivity).
  split; [exact H|]. exact (package_twice _ _ _ _ _ _ _ _ H).
Defined.


(** X20: [package] does not ask whether the skill is there: with
    nothing at or below the skill path it still writes an archive, one
    without members. *)
Theorem package_of_nothing (zip_bytes zip_partial : list member -> string)
    skill_path output_dir w :
  (forall k data, node_at w (take k (locate w output_dir)) <> Some (File data)) ->
  is_dir w (joinpath output_dir (name skill_path +:+ ".skill")) = false ->
  ~ locate w skill_path
      `prefix_of` locate w (joinpath output_dir (name skill_path +:+ ".skill")) ->
  (forall k, node_at w (locate w skill_path ++ k) = None) ->
  exists w',
    package zip_bytes zip_partial skill_path output_dir w
    = Packaged (joinpath output_dir (name skill_path +:+ ".skill")) [] w'
    /\ read_text w' (joinpath output_dir (name skill_path +:+ ".skill"))
       = Some (zip_bytes []).
Proof.
  intros Hway Hnd Hout Hnone.
  destruct (package_runs zip_bytes zip_partial skill_path output_dir w Hway Hnd)
    as (w1 & w2 & E1 & E2 & Epkg).
  set (package_path := joinpath output_dir (name skill_path +:+ ".skill")) in *.
  destruct (packaged_archive zip_bytes zip_partial _ _ _ _ _ _ Epkg Hout) as [_ Hread].
  set (members := fold_left _ _ _) in *.
  assert (Hm : members = []).
  { destruct members as [|[a data] ms] eqn:Em; [reflexivity|]. exfalso.
    specialize (Hread a). unfold archive_read in Hread. simpl in Hread.
    rewrite lookup_insert_eq in Hread. unfold file_below in Hread.
    destruct a as [|x a]; [discriminate|].
    specialize (Hnone (x :: a)). unfold node_at in Hnone.
    destruct (locate w skill_path ++ x :: a) eqn:El.
    { destruct (locate w skill_path); discriminate. }
    rewrite Hnone in Hread. discriminate. }
  rewrite Hm in Epkg. eexists. split; [exact Epkg|].
  unfold read_text, stat.
  change (locate (put w2 ?l ?n) package_path) with (locate w2 package_path).
  rewrite node_at_put_eq; [reflexivity|].
  destruct (write_text_spec _ _ _ _ E2) as ([C2 _] & _).
  destruct (mkdir_parents_spec _ _ _ E1) as (C1 & _ & _).
  rewrite (locate_same_cwd w w2 package_path) by congruence.
  unfold package_path. rewrite locate_joinpath.
  destruct (locate w output_dir); discriminate.
Qed.

Lemma package_of_nothing_witness :
  exists_ w0 (rel ["ghost"]) = false
  /\ exists w',
       package listing listing (rel ["ghost"]) (rel ["dist"]) w0
       = Packaged (joinpath (rel ["dist"]) (name (rel ["ghost"]) +:+ ".skill")) [] w'
       /\ read_text w' (joinpath (rel ["dist"]) (name (rel ["ghost"]) +:+ ".skill"))
          = Some (listing []).
Proof.
  split; [reflexivity|].
  apply (package_of_nothing listing listing (rel ["ghost"]) (rel ["dist"]) w0).
  - intros k data. destruct k as [|[|[|k]]]; vm_compute; discriminate.
  - reflexivity.
  - intros [k E]. vm_compute in E. discriminate E.
  - intros k. apply lookup_singleton_ne. discriminate.
Defined.

End PackagerProperties.

(** ** The command lines together *)

Section CliProperties.
Import Yaml FS Spec Shape PackageSkill Reference Reference2.




(** The report the validator gives on a skill just created (the
    reasoning of the fresh-skill claim, for any output of the run). *)
Lemma fresh_report (title : string -> string) safe_load name output_path w w' d nm :
  InitSkill.name_accepted name = true ->
  PyStr.contains "---" name = false ->
  safe_load ("name: " +:+ name +:+ newline +:+ "description: "
               +:+ InitSkill.TEMPLATE_DESCRIPTION) = Loaded (YMap d) ->
  get "name" d = Some nm ->
  get "description" d = Some (YStr InitSkill.TEMPLATE_DESCRIPTION) ->
  InitSkill.main title name output_path w = InitSkill.Created w' ->
  exists warns,
    validate safe_load w' (joinpath output_path name)
    = Returned false [EDescTodo] warns.
Proof.
  intros Hacc Hdash Hload Hnm Hds Hmain.
  unfold InitSkill.main in Hmain. rewrite Hacc in Hmain.
  simpl negb in Hmain. cbv iota in Hmain.
  rewrite name_accepted_char_form in Hacc.
  apply andb_true_iff in Hacc as [Hchars _].
  apply created_world in Hmain as [Hdir Hread].
  assert (Hpart : PyStr.partition "---" name = None).
  { unfold PyStr.contains in Hdash.
    destruct (PyStr.partition "---" name); [discriminate | reflexivity]. }
  pose proof (template_split name (title (PyStr.replace_char "-" " " name)) Hpart)
    as Hsplit.
  rewrite <- (template_header name Hchars) in Hload.
  destruct (check_fields_str d nm InitSkill.TEMPLATE_DESCRIPTION
              (new_validator (joinpath output_path name))) as (v1 & Hf & E1).
  rewrite template_description_long, template_description_todo in E1.
  destruct (pass_after_fields safe_load w' _ _ _ _ _ _ d nm _
              Hdir Hread eq_refl Hsplit Hload Hnm Hds v1 Hf) as (warns & V).
  cbv zeta in V.
  rewrite name_joinpath, template_body_not_empty,
    (permitted_name_has_no_space _ Hchars), E1 in V.
  exists warns. exact V.
Qed.



(** X22: a skill just created cannot be packaged: for every accepted
    name without three hyphens in a row, running the packaging command
    on the directory the initializer made ends with status 1, whatever
    output directory is given. *)
Theorem fresh_skill_not_packaged (title : string -> string)
    (safe_load : string -> loaded)
    (zip_bytes zip_partial : list member -> string)
    name path output_dir w w' d nm :
  InitSkill.name_accepted name = true ->
  PyStr.contains "---" name = false ->
  safe_load ("name: " +:+ name +:+ newline +:+ "description: "
               +:+ InitSkill.TEMPLATE_DESCRIPTION) = Loaded (YMap d) ->
  get "name" d = Some nm ->
  get "description" d = Some (YStr InitSkill.TEMPLATE_DESCRIPTION) ->
  InitCli.run title name path w = InitSkill.Created w' ->
  PackageCli.main safe_load zip_bytes zip_partial
    (joinpath (match path with Some p => p | None => InitCli.default_path w end) name)
    output_dir w'
  = PackageCli.SysExit 1.
Proof.
  intros Hacc Hdash Hload Hnm Hds Hrun. unfold InitCli.run in Hrun.
  destruct (fresh_report title safe_load name _ w w' d nm
              Hacc Hdash Hload Hnm Hds Hrun) as (warns & V).
  unfold PackageCli.main. rewrite V. reflexivity.
Qed.

Lemma fresh_skill_not_packaged_witness :
  InitCli.run title_ascii "demo" None w0
  = InitSkill.Created
      (match InitCli.run title_ascii "demo" None w0 with
       | InitSkill.Created w' => w'
       | _ => w0
       end)
  /\ PackageCli.main yaml_lines listing listing
       (joinpath (InitCli.default_path w0) "demo") None
       (match InitCli.run title_ascii "demo" None w0 with
        | InitSkill.Created w' => w'
        | _ => w0
        end)
     = PackageCli.SysExit 1.
Proof.
  assert (H : InitCli.run title_ascii "demo" None w0
              = InitSkill.Created
                  (match InitCli.run title_ascii "demo" None w0 with
                   | InitSkill.Created w' => w'
                   | _ => w0
                   end)) by (vm_compute; reflexivity).
  split; [exact H|].
  eapply (fresh_skill_not_packaged title_ascii yaml_lines listing listing
            "demo" None None w0).
  - reflexivity.
  - reflexivity.
  - vm_compute; reflexivity.
  - reflexivity.
  - reflexivity.
  - exact H.
Defined.

End CliProperties.
